(** * VibeWalk: a shallow embedding of [backend/main.py]

    The development follows the Python module function by function.
    Python [float]s are IEEE-754 binary64 values, modelled by the
    axiom-free executable specification [SpecFloat] of the Standard
    Library at precision 53 and maximal exponent 1024; Python [int]s used
    as lengths and indices are [nat]; [str] is [string], one character
    per code point (texts within Latin-1); exceptions are the [Raise] case
    of a result type.  The Qdrant client, the OSRM HTTP
    service and the embedding model are external: they enter the model as
    section variables (for queries and routing) or as a small explicit
    store (for collection management and upserts). *)

From Stdlib Require Import ZArith String Ascii List Bool Lia.
From Stdlib Require Import SpecFloat.
From stdpp Require Import base option list strings pretty gmap.

Local Open Scope string_scope.
Local Open Scope list_scope.
Local Open Scope nat_scope.

(** ** Python exceptions and the result monad *)

Inductive Exception : Type :=
  | ZeroDivisionError
  | IndexError
  | KeyError (key : string)
  | ValueError (msg : string)
  | ExternalError (msg : string).

Inductive Result (A : Type) : Type :=
  | Ok (a : A)
  | Raise (e : Exception).
Arguments Ok {A} a.
Arguments Raise {A} e.

#[global] Instance Result_ret : MRet Result := λ A a, Ok a.
#[global] Instance Result_bind : MBind Result := λ A B f m,
  match m with
  | Ok a => f a
  | Raise e => Raise e
  end.
#[global] Instance Result_fmap : FMap Result := λ A B f m,
  match m with
  | Ok a => Ok (f a)
  | Raise e => Raise e
  end.

(** [for x in l: s = f(s, x)] where the body may raise. *)
Fixpoint foldM `{MBind M, MRet M} {A S : Type} (f : S → A → M S) (s : S)
  (l : list A) : M S :=
  match l with
  | [] => mret s
  | x :: l' => s' ← f s x; foldM f s' l'
  end.

(** [try: m except Exception: h] *)
Definition try_except {A : Type} (m : Result A) (h : Exception → A) : A :=
  match m with
  | Ok a => a
  | Raise e => h e
  end.

(** ** Python floats: IEEE-754 binary64 *)

Abbreviation pyfloat := spec_float (only parsing).

Definition prec : Z := 53.
Definition emax : Z := 1024.

Definition float_of_int (z : Z) : pyfloat := binary_normalize prec emax z 0 false.

(** The value of a decimal literal [m * 10^-k].  Both [m] and [10^k] are
    exact for the literals of the module (below [2^53] and [10^22]), so the
    correctly rounded quotient is the correctly rounded literal. *)
Definition float_of_decimal (m : Z) (k : nat) : pyfloat :=
  SFdiv prec emax (float_of_int m) (float_of_int (10 ^ Z.of_nat k)).

Definition pyfloat_of_number (n : Number.number) : option pyfloat :=
  match n with
  | Number.Decimal (Decimal.Decimal i f) =>
      Some (float_of_decimal (Z.of_int (Decimal.app_int i f)) (Decimal.nb_digits f))
  | _ => None
  end.
Definition pyfloat_to_number (x : pyfloat) : option Number.number := None.

Declare Scope py_scope.
Delimit Scope py_scope with py.
Number Notation spec_float pyfloat_of_number pyfloat_to_number : py_scope.

Definition fadd : pyfloat → pyfloat → pyfloat := SFadd prec emax.
Definition fsub : pyfloat → pyfloat → pyfloat := SFsub prec emax.
Definition fmul : pyfloat → pyfloat → pyfloat := SFmul prec emax.
Definition fdiv : pyfloat → pyfloat → pyfloat := SFdiv prec emax.
Definition flt : pyfloat → pyfloat → bool := SFltb.
Definition fle : pyfloat → pyfloat → bool := SFleb.
Definition fgt (x y : pyfloat) : bool := flt y x.

Infix "+" := fadd : py_scope.
Infix "-" := fsub : py_scope.
Infix "*" := fmul : py_scope.
Infix "/" := fdiv : py_scope.
Infix "<?" := flt : py_scope.
Infix "<=?" := fle : py_scope.
Infix ">?" := fgt : py_scope.

(** [min(a, b)] and [max(a, b)] of Python: the first argument is kept
    unless the second one is strictly smaller (larger). *)
Definition py_min (a b : pyfloat) : pyfloat := if (b <? a)%py then b else a.
Definition py_max (a b : pyfloat) : pyfloat := if (b >? a)%py then b else a.

(** ** Python integers, ranges, indexing and [str.split] *)

(** [a // b] on non-negative integers. *)
Definition py_floordiv (a b : nat) : Result nat :=
  match b with
  | O => Raise ZeroDivisionError
  | S _ => Ok (a `div` b)
  end.

(** [range(start, stop, step)] for [step >= 1]; its length is
    [(stop - start + step - 1) // step], as in CPython. *)
Definition py_range (start stop step : nat) : list nat :=
  (λ k, start + k * step) <$> seq 0 ((stop - start + step - 1) `div` step).

(** [l[i]] for [i >= 0]. *)
Definition py_getitem {A : Type} (l : list A) (i : nat) : Result A :=
  match l !! i with
  | Some x => Ok x
  | None => Raise IndexError
  end.

(** [s.split(sep)] for a one-character separator. *)
Fixpoint py_split (sep : ascii) (s : string) : list string :=
  match s with
  | EmptyString => [EmptyString]
  | String c s' =>
      if Ascii.eqb c sep then EmptyString :: py_split sep s'
      else match py_split sep s' with
           | [] => [String c EmptyString]
           | w :: ws => String c w :: ws
           end
  end.

(** [enumerate(l)] *)
Definition py_enumerate {A : Type} (l : list A) : list (nat * A) :=
  zip (seq 0 (length l)) l.

(** [x in l] for strings. *)
Definition py_in (x : string) (l : list string) : bool :=
  existsb (String.eqb x) l.

(** ** Models (the pydantic classes and the Qdrant records) *)

Record Point : Type := { lat : pyfloat; lng : pyfloat }.

Record VibeReport : Type := {
  report_lat : pyfloat;
  report_lng : pyfloat;
  report_description : string;
  report_type : string
}.

Record Recommendation : Type := {
  rec_name : string;
  rec_description : string;
  rec_type : string
}.

Abbreviation Vector := (list spec_float) (only parsing).

(** The payload dictionaries written by [seed_nyc_data] and [report_vibe];
    a key that is absent is [None]. *)
Record Payload : Type := {
  p_text : option string;
  p_type : option string;
  p_location : option (pyfloat * pyfloat);
  p_name : option string;
  p_source : option string;
  p_timestamp : option string;
  p_severity : option string
}.

(** Point identifiers: [seed_nyc_data] uses integers, [report_vibe] the
    string form of a UUID. *)
Inductive PointId : Type :=
  | IntId (n : nat)
  | StrId (s : string).

Record ScoredPoint : Type := {
  hit_id : PointId;
  hit_score : pyfloat;
  hit_payload : Payload
}.

(** The arguments of [qdrant.query_points]. *)
Record GeoRadius : Type := {
  center_lat : pyfloat;
  center_lon : pyfloat;
  radius : pyfloat
}.

Inductive FieldCondition : Type :=
  | GeoCondition (key : string) (geo_radius : GeoRadius)
  | MatchCondition (key : string) (value : string).

Record QueryRequest : Type := {
  collection_name : string;
  query : Vector;
  limit : nat;
  must : list FieldCondition
}.

Definition COLLECTION_NAME : string := "city_vibes_nyc".

(** ** [score_route] *)

(** The local variables of the scoring loop. *)
Record ScoreState : Type := {
  total_danger_score : pyfloat;
  hit_count : nat;
  detected_tags : list string;
  recs : list Recommendation
}.

(** The dictionary returned by [score_route]. *)
Record RouteAnalysis : Type := {
  score : pyfloat;
  tags : list string;
  recommendations : list Recommendation
}.

Definition danger_request (danger_query : Vector) (p : Point) : QueryRequest :=
  {| collection_name := COLLECTION_NAME;
     query := danger_query;
     limit := 2;
     must := [GeoCondition "location"
                {| center_lat := lat p; center_lon := lng p; radius := 150.0%py |}] |}.

Definition rec_request (vibe_query : Vector) (p : Point) : QueryRequest :=
  {| collection_name := COLLECTION_NAME;
     query := vibe_query;
     limit := 1;
     must := [GeoCondition "location"
                {| center_lat := lat p; center_lon := lng p; radius := 100.0%py |};
              MatchCondition "type" "review"] |}.

(** [hit.payload.get("text", "")] *)
Definition hit_text (hit : ScoredPoint) : string :=
  default "" (p_text (hit_payload hit)).

(** [text.split(":")[0]] *)
Definition tag_of (text : string) : Result string :=
  py_getitem (py_split ":" text) 0.

(** [if len(tag) < 30 and tag not in detected_tags: detected_tags.append(tag)] *)
Definition add_tag (detected_tags : list string) (tag : string) : list string :=
  if (String.length tag <? 30)%nat && negb (py_in tag detected_tags)
  then detected_tags ++ [tag]
  else detected_tags.

(** Body of [for hit in danger_hits]. *)
Definition danger_step (st : ScoreState) (hit : ScoredPoint) : Result ScoreState :=
  if (hit_score hit >? 0.60)%py then
    tag ← tag_of (hit_text hit);
    Ok {| total_danger_score := (total_danger_score st + hit_score hit)%py;
          hit_count := hit_count st + 1;
          detected_tags := add_tag (detected_tags st) tag;
          recs := recs st |}
  else Ok st.

(** Body of [for hit in rec_hits]. *)
Definition rec_step (rs : list Recommendation) (hit : ScoredPoint)
  : list Recommendation :=
  if (hit_score hit >? 0.75)%py then
    let name := default "Unknown Spot" (p_name (hit_payload hit)) in
    let desc := default "" (p_text (hit_payload hit)) in
    if negb (existsb (λ r, String.eqb (rec_name r) name) rs)
    then rs ++ [{| rec_name := name; rec_description := desc; rec_type := "place" |}]
    else rs
  else rs.

(** Lines 262-264: the sampled points. *)
Definition sample_points (path : list Point) : Result (list Point) :=
  let sample_count := 10 `min` length path in
  q ← py_floordiv (length path) sample_count;
  let step := 1 `max` q in
  pts ← mapM (py_getitem path) (py_range 0 (length path) step);
  Ok (take sample_count pts).

(** The locals before the loop.  [total_danger_score = 0] is an [int];
    Python converts it to [0.0] in [0 + hit.score] and in [0 * 4.0], so it
    is the float zero here. *)
Definition initial_state : ScoreState :=
  {| total_danger_score := 0%py; hit_count := 0;
     detected_tags := []; recs := [] |}.

Section Scoring.
(** [qdrant.query_points(...).points]: the index answers a request with
    its hits or raises (backend error, timeout).  During one scoring
    pass the index is a fixed snapshot. *)
Variable query_points : QueryRequest → Result (list ScoredPoint).
Variable DANGER_CONCEPT_VECTOR VIBE_CONCEPT_VECTOR : Vector.

(** Body of [for p in sampled_points]. *)
Definition point_step (st : ScoreState) (p : Point) : Result ScoreState :=
  danger_hits ← query_points (danger_request DANGER_CONCEPT_VECTOR p);
  st1 ← foldM danger_step st danger_hits;
  if (length (recs st1) <? 2)%nat then
    rec_hits ← query_points (rec_request VIBE_CONCEPT_VECTOR p);
    Ok {| total_danger_score := total_danger_score st1;
          hit_count := hit_count st1;
          detected_tags := detected_tags st1;
          recs := fold_left rec_step rec_hits (recs st1) |}
  else Ok st1.

Definition score_route (path : list Point) : Result RouteAnalysis :=
  sampled_points ← sample_points path;
  st ← foldM point_step initial_state sampled_points;
  let penalty := (total_danger_score st * 4.0)%py in
  let final_score := py_max 1.0%py (py_min 10.0%py (10.0 - penalty)%py) in
  Ok {| score := final_score;
        tags := take 4 (detected_tags st);
        recommendations := recs st |}.
End Scoring.

(** ** Routing: [fetch_osrm_route] and [generate_real_paths] *)

(** The part of the OSRM JSON answer that the module reads:
    [data["code"]] and [data["routes"][k]["geometry"]["coordinates"]]. *)
Record OsrmRoute : Type := { coordinates : list (list pyfloat) }.
Record OsrmData : Type := { code : option string; routes : list OsrmRoute }.

(** Truth value of a list: [if l:]. *)
Definition py_truthy {A : Type} (l : list A) : bool :=
  match l with
  | [] => false
  | _ :: _ => true
  end.

(** [Point(lat=c[1], lng=c[0])] *)
Definition point_of_coord (c : list pyfloat) : Result Point :=
  y ← py_getitem c 1;
  x ← py_getitem c 0;
  Ok {| lat := y; lng := x |}.

(** [offset = 0.003] and the two waypoints of [generate_real_paths]. *)
Definition offset : pyfloat := 0.003%py.

Definition waypoint_north (start end_ : Point) : Point :=
  {| lat := ((lat start + lat end_) / 2 + offset)%py;
     lng := ((lng start + lng end_) / 2)%py |}.

Definition waypoint_south (start end_ : Point) : Point :=
  {| lat := ((lat start + lat end_) / 2 - offset)%py;
     lng := ((lng start + lng end_) / 2)%py |}.

Section Routing.
(** [requests.get(url, params, timeout=10).json()] for the route from
    [start] to [end] with the given profile; raises on a network error, a
    timeout or a body that is not JSON. *)
Variable osrm_get : string → Point → Point → Result OsrmData.

Definition fetch_osrm_route (start end_ : Point) (profile : string) : list Point :=
  try_except
    (data ← osrm_get profile start end_;
     if bool_decide (code data = Some "Ok") && py_truthy (routes data) then
       route ← py_getitem (routes data) 0;
       mapM point_of_coord (coordinates route)
     else Ok [])
    (λ _, []).

Definition generate_real_paths (start end_ : Point) : list (list Point) :=
  let paths := [] in
  let direct := fetch_osrm_route start end_ "foot" in
  let paths := if py_truthy direct then paths ++ [direct] else paths in
  let waypoint_north := waypoint_north start end_ in
  let alt1_a := fetch_osrm_route start waypoint_north "foot" in
  let alt1_b := fetch_osrm_route waypoint_north end_ "foot" in
  let paths :=
    if py_truthy alt1_a && py_truthy alt1_b
    then paths ++ [alt1_a ++ drop 1 alt1_b] else paths in
  let waypoint_south := waypoint_south start end_ in
  let alt2_a := fetch_osrm_route start waypoint_south "foot" in
  let alt2_b := fetch_osrm_route waypoint_south end_ "foot" in
  let paths :=
    if py_truthy alt2_a && py_truthy alt2_b
    then paths ++ [alt2_a ++ drop 1 alt2_b] else paths in
  if negb (py_truthy paths) then paths ++ [[start; end_]] else paths.
End Routing.

(** ** The Qdrant store

    The client is external; the model keeps what the module relies on:
    named collections of points keyed by identifier, [create_collection]
    raising when the name is taken, [upsert] raising when the collection
    is missing and replacing a point stored under the same identifier, and
    every call raising while the backend cannot be reached. *)

#[global] Instance PointId_eq_dec : EqDecision PointId.
Proof. solve_decision. Defined.

#[global] Instance PointId_countable : Countable PointId.
Proof.
  refine (inj_countable'
            (λ x, match x with IntId n => inl n | StrId s => inr s end)
            (λ y, match y with inl n => IntId n | inr s => StrId s end) _).
  intros []; reflexivity.
Defined.

Inductive Distance : Type := COSINE | EUCLID | DOT.

Record VectorParams : Type := { vp_size : nat; vp_distance : Distance }.

Record PointStruct : Type := {
  ps_id : PointId;
  ps_vector : Vector;
  ps_payload : Payload
}.

Record Collection : Type := {
  vectors_config : VectorParams;
  points : gmap PointId (Vector * Payload)
}.

Record Qdrant : Type := {
  reachable : bool;
  collections : gmap string Collection
}.

(** Computations on the store that may raise; the store reached when the
    exception is raised is kept. *)
Definition Store (A : Type) : Type := Qdrant → Result A * Qdrant.

#[global] Instance Store_ret : MRet Store := λ A a q, (Ok a, q).
#[global] Instance Store_bind : MBind Store := λ A B f m q,
  match m q with
  | (Ok a, q') => f a q'
  | (Raise e, q') => (Raise e, q')
  end.

(** [try: m except Exception: h] on the store. *)
Definition store_try {A : Type} (m : Store A) (h : Exception → Store A) : Store A :=
  λ q, match m q with
       | (Ok a, q') => (Ok a, q')
       | (Raise e, q') => h e q'
       end.

Definition unreachable : Exception := ExternalError "backend unreachable".

(** [qdrant.get_collections()]: the names of the collections. *)
Definition get_collections : Store (list string) := λ q,
  if reachable q then (Ok (map_to_list (collections q)).*1, q)
  else (Raise unreachable, q).

Definition create_collection (name : string) (config : VectorParams) : Store unit :=
  λ q,
  if reachable q then
    match collections q !! name with
    | Some _ => (Raise (ValueError "collection already exists"), q)
    | None =>
        (Ok (), {| reachable := reachable q;
                   collections :=
                     <[name := {| vectors_config := config; points := ∅ |}]>
                       (collections q) |})
    end
  else (Raise unreachable, q).

Definition upsert_point (m : gmap PointId (Vector * Payload)) (p : PointStruct)
  : gmap PointId (Vector * Payload) :=
  <[ps_id p := (ps_vector p, ps_payload p)]> m.

Definition upsert (name : string) (pts : list PointStruct) : Store unit :=
  λ q,
  if reachable q then
    match collections q !! name with
    | None => (Raise (ValueError "collection not found"), q)
    | Some c =>
        (Ok (), {| reachable := reachable q;
                   collections :=
                     <[name := {| vectors_config := vectors_config c;
                                  points := fold_left upsert_point pts (points c) |}]>
                       (collections q) |})
    end
  else (Raise unreachable, q).

Definition VECTOR_SIZE : nat := 384.

(** ** Startup and seeding *)

(** A record of the open-data answer: the keys the module reads. *)
Record CrimeRecord : Type := {
  pd_desc : option string;
  latitude : option string;
  longitude : option string
}.

(** The dictionaries collected in [points]. *)
Record SeedPoint : Type := {
  sd_text : string;
  sd_type : string;
  sd_lat : pyfloat;
  sd_lng : pyfloat;
  sd_name : option string
}.

(** [record[key]] on a dictionary read as a record of optional fields. *)
Definition py_key {A : Type} (key : string) (v : option A) : Result A :=
  match v with
  | Some a => Ok a
  | None => Raise (KeyError key)
  end.

Definition reviews : list SeedPoint :=
  [ {| sd_text := "Joe's Pizza - Best slice in NY! Felt super safe and busy.";
       sd_type := "review"; sd_lat := 40.7305%py; sd_lng := (-74.0021)%py;
       sd_name := Some "Joe's Pizza" |};
    {| sd_text := "Bryant Park - Lovely place to sit and have coffee. Security is visible.";
       sd_type := "review"; sd_lat := 40.7536%py; sd_lng := (-73.9832)%py;
       sd_name := Some "Bryant Park" |};
    {| sd_text := "MOMA - Amazing art, very secure entrance and clean area.";
       sd_type := "review"; sd_lat := 40.7614%py; sd_lng := (-73.9776)%py;
       sd_name := Some "MOMA" |};
    {| sd_text := "High Line - Beautiful walk, filled with tourists and families.";
       sd_type := "review"; sd_lat := 40.7480%py; sd_lng := (-74.0048)%py;
       sd_name := Some "The High Line" |};
    {| sd_text := "Subway Station Entrance - A bit sketchy at night, saw some fights.";
       sd_type := "review"; sd_lat := 40.7505%py; sd_lng := (-73.9934)%py;
       sd_name := Some "Subway Entrance" |};
    {| sd_text := "Dark alley behavior near 8th Ave, avoid alone.";
       sd_type := "review"; sd_lat := 40.7550%py; sd_lng := (-73.9920)%py;
       sd_name := Some "8th Ave Corner" |} ].

Section Seeding.
(** [get_vector]: the embedding of a text. *)
Variable get_vector : string → Vector.
(** [float(s)] on a string. *)
Variable py_float : string → Result pyfloat.
(** [requests.get(data_url).json()]: the records, or an exception. *)
Variable crime_response : Result (list CrimeRecord).

(** Body of [for record in crime_data]. *)
Definition crime_step (pts : list SeedPoint) (record : CrimeRecord)
  : Result (list SeedPoint) :=
  let desc := default "Unspecified Crime" (pd_desc record) in
  lat_s ← py_key "latitude" (latitude record);
  lat_v ← py_float lat_s;
  lng_s ← py_key "longitude" (longitude record);
  lng_v ← py_float lng_s;
  if (40.70 <? lat_v)%py && (lat_v <? 40.80)%py
     && ((-74.02) <? lng_v)%py && (lng_v <? (-73.95))%py
  then Ok (pts ++ [{| sd_text := "Crime Report: " +:+ desc; sd_type := "crime";
                      sd_lat := lat_v; sd_lng := lng_v; sd_name := None |}])
  else Ok pts.

(** The loop inside [try]: an exception ends it and leaves the points
    collected so far. *)
Fixpoint crime_loop (pts : list SeedPoint) (records : list CrimeRecord)
  : list SeedPoint :=
  match records with
  | [] => pts
  | record :: records' =>
      match crime_step pts record with
      | Ok pts' => crime_loop pts' records'
      | Raise _ => pts
      end
  end.

Definition seed_payload (p : SeedPoint) : Payload :=
  {| p_text := Some (sd_text p);
     p_type := Some (sd_type p);
     p_location := Some (sd_lat p, sd_lng p);
     p_name := sd_name p;
     p_source := None; p_timestamp := None; p_severity := None |}.

(** Body of [for i, p in enumerate(points)]. *)
Definition batch_step (upsert_points : list PointStruct) (ip : nat * SeedPoint)
  : Store (list PointStruct) :=
  let vector := get_vector (sd_text ip.2) in
  let upsert_points :=
    upsert_points ++ [{| ps_id := IntId ip.1; ps_vector := vector;
                         ps_payload := seed_payload ip.2 |}] in
  if (100 <=? length upsert_points)%nat then
    upsert COLLECTION_NAME upsert_points;; mret []
  else mret upsert_points.

Definition seed_nyc_data : Store unit :=
  let pts :=
    match crime_response with
    | Ok crime_data => crime_loop [] crime_data
    | Raise _ => []
    end in
  let pts := pts ++ reviews in
  upsert_points ← foldM batch_step [] (py_enumerate pts);
  if py_truthy upsert_points then upsert COLLECTION_NAME upsert_points
  else mret ().

Definition startup_event : Store unit :=
  exists_ ← store_try
    (names ← get_collections;
     mret (existsb (λ c, String.eqb c COLLECTION_NAME) names))
    (λ _, mret false);
  if negb exists_ then
    create_collection COLLECTION_NAME
      {| vp_size := VECTOR_SIZE; vp_distance := COSINE |};;
    seed_nyc_data
  else mret ().

(** ** [report_vibe] *)

Record ReportResponse : Type := {
  status : string;
  message : string;
  location : pyfloat * pyfloat
}.

(** The payload dictionary of a user report. *)
Definition report_payload (report : VibeReport) (timestamp : string) : Payload :=
  {| p_text := Some (report_description report);
     p_type := Some (report_type report);
     p_location := Some (report_lat report, report_lng report);
     p_name := None;
     p_source := Some "user_report";
     p_timestamp := Some timestamp;
     p_severity := Some "high" |}.

(** [uuid4] and [timestamp] are the values of [str(uuid.uuid4())] and
    [datetime.datetime.now().isoformat()] at the call. *)
Definition report_vibe (report : VibeReport) (uuid4 timestamp : string)
  : Store ReportResponse :=
  let vector := get_vector (report_description report) in
  let point_id := uuid4 in
  upsert COLLECTION_NAME
    [{| ps_id := StrId point_id;
        ps_vector := vector;
        ps_payload := report_payload report timestamp |}];;
  mret {| status := "success";
          message := "Vibe memory updated. Search again to see impact.";
          location := (report_lat report, report_lng report) |}.
End Seeding.

(** ** [get_nearby_vibes] *)

Record Vibe : Type := {
  vibe_id : PointId;
  vibe_text : string;
  vibe_type : string;
  vibe_source : string;
  vibe_name : option string;
  vibe_timestamp : option string;
  vibe_location : option (pyfloat * pyfloat)
}.

Record NearbyVibes : Type := {
  vibes : list Vibe;
  count : nat;
  error : option string
}.

(** [str(e)] *)
Definition exception_message (e : Exception) : string :=
  match e with
  | ZeroDivisionError => "integer division or modulo by zero"
  | IndexError => "list index out of range"
  | KeyError key => key
  | ValueError msg => msg
  | ExternalError msg => msg
  end.

Definition vibe_of (point : PointId * Payload) : Vibe :=
  {| vibe_id := point.1;
     vibe_text := default "" (p_text point.2);
     vibe_type := default "unknown" (p_type point.2);
     vibe_source := default "seeded" (p_source point.2);
     vibe_name := p_name point.2;
     vibe_timestamp := p_timestamp point.2;
     vibe_location := p_location point.2 |}.

Section Nearby.
(** [qdrant.scroll(...)] with a geo filter around [(lat, lng)] and
    [limit=20]: the records found, or an exception. *)
Variable scroll : GeoRadius → nat → Result (list (PointId * Payload)).

Definition get_nearby_vibes (lat_ lng_ radius_ : pyfloat) : NearbyVibes :=
  try_except
    (results ← scroll {| center_lat := lat_; center_lon := lng_; radius := radius_ |} 20;
     let vibes := vibe_of <$> results in
     Ok {| vibes := vibes; count := length vibes; error := None |})
    (λ e, {| vibes := []; count := 0; error := Some (exception_message e) |}).
End Nearby.

(** ** [get_routes] *)

(** [round(x, ndigits)] for [ndigits >= 0]: the exact value of [x] is
    rounded to [ndigits] decimal places, ties to even, and the decimal
    obtained is converted back to the nearest float; zeros, infinities and
    NaN round to themselves. *)
Definition round_half_even (num den : Z) : Z :=
  let q := (num / den)%Z in
  let r := (num mod den)%Z in
  match (2 * r ?= den)%Z with
  | Lt => q
  | Gt => (q + 1)%Z
  | Eq => if Z.even q then q else (q + 1)%Z
  end.

Definition py_round (x : pyfloat) (ndigits : nat) : pyfloat :=
  match x with
  | S754_finite s m e =>
      let n := round_half_even (Zpos m * 10 ^ Z.of_nat ndigits * 2 ^ Z.max e 0)
                               (2 ^ Z.max (- e) 0) in
      match n with
      | Zpos p => SFdiv prec emax (S754_finite s p 0)
                    (S754_finite false (Z.to_pos (10 ^ Z.of_nat ndigits)) 0)
      | _ => S754_zero s
      end
  | _ => x
  end.

Record RouteOption : Type := {
  route_id : string;
  route_path : list Point;
  safety_score : pyfloat;
  route_tags : list string;
  description : string;
  route_recommendations : list Recommendation
}.

Definition descriptions : list string :=
  ["Direct Walking Route"; "North Alternate"; "South Alternate"].

Section Routes.
Variable osrm_get : string → Point → Point → Result OsrmData.
Variable query_points : QueryRequest → Result (list ScoredPoint).
Variable DANGER_CONCEPT_VECTOR VIBE_CONCEPT_VECTOR : Vector.

(** Body of [for i, path in enumerate(paths)]. *)
Definition route_option (ip : nat * list Point) : Result RouteOption :=
  analysis ← score_route query_points DANGER_CONCEPT_VECTOR VIBE_CONCEPT_VECTOR ip.2;
  description ← py_getitem descriptions ip.1;
  Ok {| route_id := "route-" +:+ pretty ip.1;
        route_path := ip.2;
        safety_score := py_round (score analysis) 1;
        route_tags := tags analysis;
        description := description;
        route_recommendations := recommendations analysis |}.

Definition get_routes (start_lat start_lng end_lat end_lng : pyfloat)
  : Result (list RouteOption) :=
  let start := {| lat := start_lat; lng := start_lng |} in
  let end_ := {| lat := end_lat; lng := end_lng |} in
  let paths := generate_real_paths osrm_get start end_ in
  mapM route_option (py_enumerate paths).
End Routes.

(** ** Vocabulary of the specification

    The definitions below come from the words of the specification, not
    from the code; the theorems compare them with the code above. *)

(** [clamp(v, lo, hi)] *)
Definition clamp (v lo hi : pyfloat) : pyfloat :=
  if (v <=? lo)%py then lo else if (hi <=? v)%py then hi else v.

(** The sum of a sequence of floats, accumulated from the left. *)
Definition float_sum (l : list pyfloat) : pyfloat := fold_left fadd l 0%py.

Definition is_nan (x : pyfloat) : bool :=
  match x with
  | S754_nan => true
  | _ => false
  end.

(** [x] is a zero, a finite number or an infinity with sign bit [s]. *)
Definition signed_as (s : bool) (x : pyfloat) : Prop :=
  match x with
  | S754_zero s' | S754_infinity s' | S754_finite s' _ _ => s' = s
  | S754_nan => False
  end.

(** The text before the first occurrence of [sep] (all of it when [sep]
    does not occur). *)
Fixpoint prefix_before (sep : ascii) (s : string) : string :=
  match s with
  | EmptyString => EmptyString
  | String c s' => if Ascii.eqb c sep then EmptyString else String c (prefix_before sep s')
  end.

Fixpoint occurs (c : ascii) (s : string) : bool :=
  match s with
  | EmptyString => false
  | String c' s' => Ascii.eqb c' c || occurs c s'
  end.

(** [t] is [text] up to and excluding its first [sep]. *)
Definition is_prefix_before (sep : ascii) (t text : string) : Prop :=
  occurs sep t = false ∧
  (text = t ∨ ∃ rest, text = t +:+ String sep rest).

(** The distinct elements of a list, in the order of their first
    occurrence. *)
Fixpoint first_seen (l : list string) : list string :=
  match l with
  | [] => []
  | x :: l' => x :: List.filter (λ y, negb (String.eqb y x)) (first_seen l')
  end.

(** The tag a hit proposes: its text before the first colon. *)
Definition tag_text (hit : ScoredPoint) : string := prefix_before ":" (hit_text hit).

(** A tag is kept when it is shorter than 30 characters. *)
Definition short_tag (t : string) : bool := (String.length t <? 30)%nat.

(** A danger hit counts when its similarity is above 0.60. *)
Definition danger_qualifies (hit : ScoredPoint) : bool := (hit_score hit >? 0.60)%py.

(** A recommendation hit counts when its similarity is above 0.75. *)
Definition rec_qualifies (hit : ScoredPoint) : bool := (hit_score hit >? 0.75)%py.

Definition recommendation_of (hit : ScoredPoint) : Recommendation :=
  {| rec_name := default "Unknown Spot" (p_name (hit_payload hit));
     rec_description := default "" (p_text (hit_payload hit));
     rec_type := "place" |}.

(** The hits of a request, none when the request fails. *)
Definition hits_of (r : Result (list ScoredPoint)) : list ScoredPoint :=
  match r with
  | Ok hits => hits
  | Raise _ => []
  end.

(** The danger hits around a sampled point. *)
Definition danger_hits_at (query_points : QueryRequest → Result (list ScoredPoint))
  (danger_query : Vector) (p : Point) : list ScoredPoint :=
  hits_of (query_points (danger_request danger_query p)).

(** The review hits around a sampled point. *)
Definition rec_hits_at (query_points : QueryRequest → Result (list ScoredPoint))
  (vibe_query : Vector) (p : Point) : list ScoredPoint :=
  hits_of (query_points (rec_request vibe_query p)).

(** What the recommendation list satisfies while it grows: its names are
    distinct and every entry comes from a review hit above 0.75 at one of
    the points [ps]. *)
Definition recs_ok (query_points : QueryRequest → Result (list ScoredPoint))
  (vibe_query : Vector) (ps : list Point) (rs : list Recommendation) : Prop :=
  NoDup (rec_name <$> rs) ∧
  ∀ r, r ∈ rs →
    ∃ p hit, p ∈ ps ∧ hit ∈ rec_hits_at query_points vibe_query p ∧
             rec_qualifies hit = true ∧ r = recommendation_of hit.

(** The stride of the route sampler for a path of [n] points. *)
Definition stride (n : nat) : nat := 1 `max` (n `div` 10).

(** A user submission is valid when its coordinate lies in
    [[-90,90] x [-180,180]] and its text is not empty. *)
Definition valid_submission (report : VibeReport) : bool :=
  ((-90) <=? report_lat report)%py && (report_lat report <=? 90)%py
  && ((-180) <=? report_lng report)%py && (report_lng report <=? 180)%py
  && negb (String.eqb (report_description report) "").

(** The store holds the target collection. *)
Definition has_collection (q : Qdrant) : Prop :=
  is_Some (collections q !! COLLECTION_NAME).

(** What seeding keeps: reachability and the presence of the collection. *)
Definition store_inv (b : bool) (q : Qdrant) : Prop :=
  reachable q = b ∧ has_collection q.

(** ** Fixtures: concrete collaborators on which the model is run *)

Definition text_payload (text : string) (name : option string) : Payload :=
  {| p_text := Some text; p_type := None; p_location := None; p_name := name;
     p_source := None; p_timestamp := None; p_severity := None |}.

Definition times_square : Point := {| lat := 40.7580%py; lng := (-73.9855)%py |}.
Definition penn_station : Point := {| lat := 40.7505%py; lng := (-73.9934)%py |}.

Definition assault_report : ScoredPoint :=
  {| hit_id := IntId 0; hit_score := 0.8%py;
     hit_payload := text_payload "Crime Report: ASSAULT 3" None |}.

Definition robbery_report : ScoredPoint :=
  {| hit_id := IntId 1; hit_score := 0.65%py;
     hit_payload := text_payload "Robbery: purse snatched near the station" None |}.

(** An index holding two danger reports of similarity 0.8 and 0.65 around
    every point and no review. *)
Definition two_reports_index (r : QueryRequest) : Result (list ScoredPoint) :=
  if limit r =? 2 then Ok [assault_report; robbery_report] else Ok [].

(** What [score_route] returns on a one-point path against that index:
    the score is the float 4.199999999999999. *)
Definition two_reports_result : RouteAnalysis :=
  {| score := S754_finite false 4728779608739020 (-50);
     tags := ["Crime Report"; "Robbery"];
     recommendations := [] |}.

(** An index whose every query times out. *)
Definition failing_index (r : QueryRequest) : Result (list ScoredPoint) :=
  Raise (ExternalError "query timed out").

Definition moma_review : ScoredPoint :=
  {| hit_id := IntId 2; hit_score := 0.9%py;
     hit_payload :=
       text_payload "MOMA - Amazing art, very secure entrance and clean area."
         (Some "MOMA") |}.

Definition moma_lowercase_review : ScoredPoint :=
  {| hit_id := IntId 7; hit_score := 0.8%py;
     hit_payload := text_payload "moma is worth the queue" (Some "moma") |}.

Definition bryant_park_review : ScoredPoint :=
  {| hit_id := IntId 1; hit_score := 0.85%py;
     hit_payload :=
       text_payload "Bryant Park - Lovely place to sit and have coffee. Security is visible."
         (Some "Bryant Park") |}.

(** An index with one strong review around every point. *)
Definition review_index (r : QueryRequest) : Result (list ScoredPoint) :=
  if limit r =? 1 then Ok [moma_review] else Ok [].

Definition review_result : RouteAnalysis :=
  {| score := 10.0%py;
     tags := [];
     recommendations := [recommendation_of moma_review] |}.

(** An index that ignores [limit] and answers every review query with
    three reviews. *)
Definition unbounded_index (r : QueryRequest) : Result (list ScoredPoint) :=
  if limit r =? 1 then Ok [moma_review; moma_lowercase_review; bryant_park_review]
  else Ok [].

(** A routing service that answers every request with a route of a single
    coordinate, Times Square. *)
Definition one_point_route (profile : string) (a b : Point) : Result OsrmData :=
  Ok {| code := Some "Ok";
        routes := [{| coordinates := [[(-73.9855)%py; 40.7580%py]] |}] |}.

(** A routing service without any geometry. *)
Definition no_route (profile : string) (a b : Point) : Result OsrmData :=
  Ok {| code := Some "NoRoute"; routes := [] |}.

Definition empty_store : Qdrant := {| reachable := true; collections := ∅ |}.

Definition no_embedding (text : string) : Vector := [].

Definition no_float (s : string) : Result pyfloat := Raise (ValueError "could not convert string to float").

(** The store after a first start without network access to the open data. *)
Definition seeded_store : Qdrant :=
  (startup_event no_embedding no_float (Raise unreachable) empty_store).2.

Definition seeded_collection : Collection :=
  default {| vectors_config := {| vp_size := VECTOR_SIZE; vp_distance := COSINE |};
             points := ∅ |}
    (collections seeded_store !! COLLECTION_NAME).

(** A submission far outside the coordinate ranges and without text. *)
Definition malformed_report : VibeReport :=
  {| report_lat := 91.0%py; report_lng := 200.0%py;
     report_description := ""; report_type := "report" |}.

(** * Properties

    ** Binary64 arithmetic: literals, signs, NaN and order *)

(** The decimal literals of the module as binary64 values: for instance
    [0.60] is [0x1.3333333333333p-1] and [10.0] is [0x1.4p+3]. *)
Example python_literals :
  0.60%py = S754_finite false 0x13333333333333 (-53) ∧
  0.75%py = S754_finite false 0x18000000000000 (-53) ∧
  1.0%py = S754_finite false 0x10000000000000 (-52) ∧
  4.0%py = S754_finite false 0x10000000000000 (-50) ∧
  10.0%py = S754_finite false 0x14000000000000 (-49) ∧
  0%py = S754_zero false.
Proof. repeat split. Qed.

(** Rounding keeps the sign and never produces a NaN from a non-negative
    integer significand. *)
Lemma shr_1_nonneg mrs : (0 <= shr_m mrs)%Z → (0 <= shr_m (shr_1 mrs))%Z.
Proof. destruct mrs as [[|[p|p|]|[p|p|]] r s]; simpl; lia. Qed.

Lemma iter_pos_shr_1_nonneg p mrs :
  (0 <= shr_m mrs)%Z → (0 <= shr_m (SpecFloat.iter_pos shr_1 p mrs))%Z.
Proof.
  revert mrs. induction p as [p IH|p IH|]; intros mrs Hm; simpl.
  - apply IH, IH, shr_1_nonneg, Hm.
  - apply IH, IH, Hm.
  - apply shr_1_nonneg, Hm.
Qed.

Lemma shr_fexp_nonneg m e l :
  (0 <= m)%Z → (0 <= shr_m (shr_fexp prec emax m e l).1)%Z.
Proof.
  intros Hm. unfold shr_fexp, shr.
  assert (H0 : (0 <= shr_m (shr_record_of_loc m l))%Z)
    by (destruct l as [|[]]; simpl; exact Hm).
  destruct (fexp prec emax (Zdigits2 m + e) - e)%Z; simpl; auto.
  apply iter_pos_shr_1_nonneg, H0.
Qed.

Lemma round_nearest_even_nonneg m l : (0 <= m)%Z → (0 <= round_nearest_even m l)%Z.
Proof. intros Hm. destruct l as [|[]]; simpl; try lia. destruct (Z.even m); lia. Qed.

Lemma binary_round_aux_signed s m e l :
  (0 <= m)%Z → signed_as s (binary_round_aux prec emax s m e l).
Proof.
  intros Hm. unfold binary_round_aux.
  pose proof (shr_fexp_nonneg m e l Hm) as H1.
  destruct (shr_fexp prec emax m e l) as [mrs' e'] eqn:E1. simpl in H1.
  pose proof (shr_fexp_nonneg _ e' loc_Exact
                (round_nearest_even_nonneg _ (loc_of_shr_record mrs') H1)) as H2.
  destruct (shr_fexp prec emax _ e' loc_Exact) as [mrs'' e''] eqn:E2. simpl in H2.
  destruct (shr_m mrs'') as [|p|p]; simpl; try reflexivity; [|lia].
  destruct (e'' <=? emax - prec)%Z; reflexivity.
Qed.

Lemma binary_round_signed s m e : signed_as s (binary_round prec emax s m e).
Proof.
  unfold binary_round. destruct (shl_align _ _ _) as [mz ez].
  apply binary_round_aux_signed. lia.
Qed.

Lemma fadd_nonneg x y : signed_as false x → signed_as false y → signed_as false (x + y)%py.
Proof.
  unfold fadd.
  destruct x as [sx|sx| |sx mx ex], y as [sy|sy| |sy my ey]; simpl;
    try done; intros -> ->; simpl; try done.
  apply (binary_round_signed false).
Qed.

(** [t * 4.0] for a non-negative [t]. *)
Lemma fmul_four_nonneg t : signed_as false t → signed_as false (t * 4.0)%py.
Proof.
  unfold fmul. destruct t as [s|s| |s m e]; simpl; try done; intros ->; simpl; try done.
  apply binary_round_aux_signed. lia.
Qed.

(** [10.0 - y] is a number when [y] is a non-negative number or [+inf]. *)
Lemma fsub_ten_not_nan y : signed_as false y → is_nan (10.0 - y)%py = false.
Proof.
  unfold fsub. destruct y as [s|s| |s m e]; simpl; try done; intros ->; try done.
  match goal with |- is_nan (binary_normalize _ _ ?z ?e ?b) = false =>
    destruct z as [|p|p] eqn:E; simpl end; try done.
  - pose proof (binary_round_signed false p (Z.min (-49) e)) as H.
    revert H. unfold Z.min. destruct (binary_round _ _ _ _ _); simpl; done.
  - pose proof (binary_round_signed true p (Z.min (-49) e)) as H.
    revert H. destruct (binary_round _ _ _ _ _); simpl; done.
Qed.

Lemma fmul_comm x y : (x * y)%py = (y * x)%py.
Proof.
  unfold fmul. destruct x as [sx|sx| |sx mx ex], y as [sy|sy| |sy my ey]; simpl;
    try reflexivity; try (by rewrite xorb_comm).
  by rewrite xorb_comm, Pos.mul_comm, Z.add_comm.
Qed.

(** The comparison of [SpecFloat] is antisymmetric, also on operands that
    are not in canonical form. *)
Lemma SFcompare_antisym x y : SFcompare y x = CompOpp <$> SFcompare x y.
Proof.
  destruct x as [sx|sx| |sx mx ex], y as [sy|sy| |sy my ey]; simpl;
    try reflexivity; try (by destruct sx); try (by destruct sy);
    try (by destruct sx, sy).
  destruct sx, sy; simpl; try reflexivity;
    rewrite (Z.compare_antisym ex ey); destruct (ex ?= ey)%Z; simpl;
    try reflexivity; rewrite (Pos.compare_cont_antisym mx my Eq); simpl;
    try reflexivity.
Qed.

Lemma flt_fle x y : (x <? y)%py = true → (x <=? y)%py = true.
Proof. unfold flt, fle, SFltb, SFleb. by destruct (SFcompare x y) as [[]|]. Qed.

Lemma fle_not_flt x y : (x <=? y)%py = true → (y <? x)%py = false.
Proof.
  unfold flt, fle, SFltb, SFleb. rewrite (SFcompare_antisym x y).
  by destruct (SFcompare x y) as [[]|].
Qed.

Lemma not_fle_flt x y :
  is_nan x = false → is_nan y = false → (x <=? y)%py = false → (y <? x)%py = true.
Proof.
  unfold flt, fle, SFltb, SFleb. rewrite (SFcompare_antisym x y).
  intros Hx Hy. destruct (SFcompare x y) as [[]|] eqn:E; try done.
  destruct x as [| | |], y as [| | |]; done.
Qed.

Lemma fle_one_flt_ten v : (v <=? 1.0)%py = true → (v <? 10.0)%py = true.
Proof.
  destruct v as [[]|[]| |[] m e]; try done.
  unfold flt, fle, SFltb, SFleb, SFcompare.
  destruct (Z.compare_spec e (-52)) as [H1|H1|H1];
    destruct (Z.compare_spec e (-49)) as [H2|H2|H2]; try lia; done.
Qed.

(** [max(1.0, min(10.0, v))] is [clamp(v, 1.0, 10.0)] unless [v] is NaN
    (on which Python's [min] keeps its first argument). *)
Lemma py_clamp_eq v :
  is_nan v = false → py_max 1.0%py (py_min 10.0%py v) = clamp v 1.0%py 10.0%py.
Proof.
  intros Hnan. unfold py_max, py_min, clamp, fgt.
  destruct (v <=? 1.0)%py eqn:H1.
  - rewrite (fle_one_flt_ten v H1); cbv beta iota.
    by rewrite (fle_not_flt v _ H1).
  - apply not_fle_flt in H1; [|done..].
    destruct (10.0 <=? v)%py eqn:H10.
    + by rewrite (fle_not_flt _ v H10).
    + apply not_fle_flt in H10; [|done..]. rewrite H10; cbv beta iota.
      by rewrite H1.
Qed.

Lemma py_clamp_range v :
  (1.0 <=? py_max 1.0 (py_min 10.0 v))%py = true ∧
  (py_max 1.0 (py_min 10.0 v) <=? 10.0)%py = true.
Proof.
  unfold py_max, py_min, fgt.
  destruct (v <? 10.0)%py eqn:H10.
  - destruct (1.0 <? v)%py eqn:H1; [|done]. split; by apply flt_fle.
  - done.
Qed.

Lemma flt_threshold_signed (c x : spec_float) :
  signed_as false c → (c <? x)%py = true → signed_as false x.
Proof.
  destruct c as [sc|sc| |sc mc ec], x as [[]|[]| |[] m e]; simpl; try done;
    intros ->; done.
Qed.

(** ** Strings and tags *)

Lemma py_split_head sep s : py_split sep s !! 0 = Some (prefix_before sep s).
Proof.
  induction s as [|c s IH]; simpl; [done|].
  destruct (Ascii.eqb c sep); [done|].
  destruct (py_split sep s) as [|w ws]; [done|].
  simpl in *. congruence.
Qed.

Lemma tag_of_ok text : tag_of text = Ok (prefix_before ":" text).
Proof. unfold tag_of, py_getitem. by rewrite py_split_head. Qed.

Lemma prefix_before_spec sep s : is_prefix_before sep (prefix_before sep s) s.
Proof.
  unfold is_prefix_before. induction s as [|c s [IH1 IH2]]; simpl.
  - split; [done|by left].
  - destruct (Ascii.eqb c sep) eqn:E; simpl.
    + apply Ascii.eqb_eq in E as ->. split; [done|]. right. by exists s.
    + rewrite E. split; [done|].
      destruct IH2 as [IH2|[rest IH2]].
      * left. by rewrite <- IH2.
      * right. exists rest. by rewrite IH2 at 1.
Qed.

(** ** First-seen order *)

Lemma filter_bool_comm {A} (f g : A → bool) (l : list A) :
  List.filter f (List.filter g l) = List.filter g (List.filter f l).
Proof.
  induction l as [|x l IH]; simpl; [done|].
  destruct (f x) eqn:Ef, (g x) eqn:Eg; simpl; rewrite ?Ef, ?Eg, ?IH; done.
Qed.

Lemma filter_bool_absorb {A} (f g : A → bool) (l : list A) :
  (∀ x, g x = false → f x = false) →
  List.filter f (List.filter g l) = List.filter f l.
Proof.
  intros Hfg. induction l as [|x l IH]; simpl; [done|].
  destruct (g x) eqn:Eg; simpl; rewrite ?IH; [done|].
  by rewrite (Hfg x Eg).
Qed.

Lemma first_seen_filter (f : string → bool) l :
  first_seen (List.filter f l) = List.filter f (first_seen l).
Proof.
  induction l as [|x l IH]; simpl; [done|].
  destruct (f x) eqn:E; simpl; rewrite IH.
  - f_equal. apply filter_bool_comm.
  - symmetry. apply filter_bool_absorb.
    intros y Hy. apply negb_false_iff, String.eqb_eq in Hy. congruence.
Qed.

Lemma elem_of_first_seen x l : x ∈ first_seen l ↔ x ∈ l.
Proof.
  induction l as [|y l IH]; simpl; [done|].
  rewrite !elem_of_cons, list_elem_of_In, filter_In, <- list_elem_of_In, IH.
  rewrite negb_true_iff, String.eqb_neq.
  destruct (decide (x = y)) as [->|Hne]; [by split; left|].
  split; [intros [?|[? _]]; [done|by right]|intros [?|?]; [done|by right]].
Qed.

Lemma NoDup_filter_bool {A} (f : A → bool) (l : list A) :
  NoDup l → NoDup (List.filter f l).
Proof.
  induction 1 as [|x l Hx Hl IH]; simpl; [constructor|].
  destruct (f x); [|done]. constructor; [|done].
  rewrite list_elem_of_In, filter_In, <- list_elem_of_In. tauto.
Qed.

Lemma NoDup_first_seen l : NoDup (first_seen l).
Proof.
  induction l as [|x l IH]; simpl; constructor.
  - rewrite list_elem_of_In, filter_In, String.eqb_refl. by intros [_ ?].
  - by apply NoDup_filter_bool.
Qed.

Lemma sublist_filter_bool {A} (f : A → bool) (l : list A) :
  List.filter f l `sublist_of` l.
Proof.
  induction l as [|x l IH]; simpl; [done|].
  destruct (f x); by constructor.
Qed.

Lemma first_seen_sublist l : first_seen l `sublist_of` l.
Proof.
  induction l as [|x l IH]; simpl; [done|].
  constructor. etrans; [apply sublist_filter_bool|done].
Qed.

Lemma filter_bool_and {A} (f g : A → bool) (l : list A) :
  List.filter f (List.filter g l) = List.filter (λ x, g x && f x) l.
Proof.
  induction l as [|x l IH]; simpl; [done|].
  destruct (g x); simpl; by rewrite ?IH.
Qed.

(** The loop that appends unseen short tags builds the first-seen list. *)
Lemma fold_add_tag cands acc :
  fold_left add_tag cands acc =
  acc ++ first_seen (List.filter (λ t, short_tag t && negb (py_in t acc)) cands).
Proof.
  revert acc. induction cands as [|t cands IH]; intros acc; simpl.
  - by rewrite app_nil_r.
  - unfold add_tag at 2. change (String.length t <? 30)%nat with (short_tag t).
    destruct (short_tag t && negb (py_in t acc)) eqn:E; rewrite IH; [|done].
    rewrite <- app_assoc. simpl. do 2 f_equal.
    rewrite <- first_seen_filter, filter_bool_and. f_equal.
    apply filter_ext. intros u. unfold py_in. rewrite existsb_app. simpl.
    by rewrite orb_false_r, negb_orb, andb_assoc.
Qed.

Lemma fold_add_tag_nil cands :
  fold_left add_tag cands [] = first_seen (List.filter short_tag cands).
Proof.
  rewrite fold_add_tag. simpl. f_equal. apply filter_ext. intros t.
  apply andb_true_r.
Qed.

(** ** The scoring loops *)

Lemma foldM_cons `{MBind M, MRet M} {A S} (f : S → A → M S) s x l :
  foldM f s (x :: l) = f s x ≫= λ s', foldM f s' l.
Proof. reflexivity. Qed.

Lemma bind_Ok {A B} (f : A → Result B) a : Ok a ≫= f = f a.
Proof. reflexivity. Qed.

Lemma danger_step_eq st hit :
  danger_step st hit =
  Ok (if danger_qualifies hit
      then {| total_danger_score := (total_danger_score st + hit_score hit)%py;
              hit_count := hit_count st + 1;
              detected_tags := add_tag (detected_tags st) (tag_text hit);
              recs := recs st |}
      else st).
Proof.
  unfold danger_step, danger_qualifies, tag_text.
  destruct (hit_score hit >? 0.60)%py; [|done]. by rewrite tag_of_ok.
Qed.

(** The inner danger loop never raises. *)
Lemma foldM_danger_step hits st :
  ∃ st', foldM danger_step st hits = Ok st' ∧
    total_danger_score st' =
      fold_left fadd (hit_score <$> List.filter danger_qualifies hits)
        (total_danger_score st) ∧
    detected_tags st' =
      fold_left add_tag (tag_text <$> List.filter danger_qualifies hits)
        (detected_tags st) ∧
    recs st' = recs st.
Proof.
  revert st. induction hits as [|hit hits IH]; intros st.
  - by exists st.
  - rewrite foldM_cons, danger_step_eq, bind_Ok. simpl.
    destruct (danger_qualifies hit) eqn:E; simpl; [|apply IH].
    destruct (IH {| total_danger_score := (total_danger_score st + hit_score hit)%py;
                    hit_count := hit_count st + 1;
                    detected_tags := add_tag (detected_tags st) (tag_text hit);
                    recs := recs st |}) as (st' & H1 & H2 & H3 & H4).
    by exists st'.
Qed.

Section ScoringProofs.
Variable query_points : QueryRequest → Result (list ScoredPoint).
Variable dvec vvec : list spec_float.

(** One iteration that returns: the danger query answered, the danger
    total and the tags grew by its hits above 0.60, and the recommendations
    grew by the review hits when fewer than two were collected. *)
Lemma point_step_ok st p st' :
  point_step query_points dvec vvec st p = Ok st' →
  ∃ dhits, query_points (danger_request dvec p) = Ok dhits ∧
    total_danger_score st' =
      fold_left fadd (hit_score <$> List.filter danger_qualifies dhits)
        (total_danger_score st) ∧
    detected_tags st' =
      fold_left add_tag (tag_text <$> List.filter danger_qualifies dhits)
        (detected_tags st) ∧
    ((2 ≤ length (recs st) ∧ recs st' = recs st) ∨
     (length (recs st) < 2 ∧
      ∃ rhits, query_points (rec_request vvec p) = Ok rhits ∧
               recs st' = fold_left rec_step rhits (recs st))).
Proof.
  unfold point_step. intros H.
  destruct (query_points (danger_request dvec p)) as [dhits|e] eqn:Ed; [|done].
  rewrite bind_Ok in H.
  destruct (foldM_danger_step dhits st) as (st1 & H1 & H2 & H3 & H4).
  rewrite H1, bind_Ok, H4 in H.
  exists dhits. split; [done|].
  destruct (length (recs st) <? 2)%nat eqn:El.
  - apply Nat.ltb_lt in El.
    destruct (query_points (rec_request vvec p)) as [rhits|e] eqn:Er; [|done].
    rewrite bind_Ok in H. injection H as <-. simpl.
    split_and!; [done..|]. right. split; [done|]. by exists rhits.
  - apply Nat.ltb_ge in El. injection H as <-.
    split_and!; [done..|]. by left.
Qed.

(** The whole loop: the danger total and the tags depend on the danger
    hits of the sampled points only, taken in sampling order. *)
Lemma foldM_point_step_danger l st st' :
  foldM (point_step query_points dvec vvec) st l = Ok st' →
  total_danger_score st' =
    fold_left fadd
      (hit_score <$> List.filter danger_qualifies (flat_map (danger_hits_at query_points dvec) l))
      (total_danger_score st) ∧
  detected_tags st' =
    fold_left add_tag
      (tag_text <$> List.filter danger_qualifies (flat_map (danger_hits_at query_points dvec) l))
      (detected_tags st).
Proof.
  revert st. induction l as [|p l IH]; intros st H; simpl in *.
  - by injection H as <-.
  - destruct (point_step query_points dvec vvec st p) as [st1|e] eqn:E; [|done].
    simpl in H. apply IH in H as [H1 H2].
    apply point_step_ok in E as (dhits & Ed & E1 & E2 & _).
    unfold danger_hits_at at 1 3. rewrite Ed. simpl.
    rewrite !List.filter_app, !fmap_app, !fold_left_app.
    by rewrite <- E1, <- E2.
Qed.
End ScoringProofs.

(** ** The route sampler *)

Lemma py_range_length start stop step :
  length (py_range start stop step) = (stop - start + step - 1) `div` step.
Proof. unfold py_range. by rewrite length_fmap, length_seq. Qed.

Lemma py_range_lookup start stop step k :
  k < (stop - start + step - 1) `div` step →
  py_range start stop step !! k = Some (start + k * step).
Proof.
  intros Hk. unfold py_range. rewrite list_lookup_fmap, lookup_seq_lt by done.
  done.
Qed.

(** Every index produced by [range(0, n, step)] is below [n]. *)
Lemma py_range_bound n step i :
  1 ≤ step → i ∈ py_range 0 n step → i < n.
Proof.
  intros Hs Hi. unfold py_range in Hi.
  apply list_elem_of_fmap in Hi as (k & -> & Hk).
  apply elem_of_seq in Hk as [_ Hk]. simpl in *.
  assert (S k ≤ (n - 0 + step - 1) `div` step) as Hk' by lia.
  pose proof (Nat.Div0.mul_div_le (n - 0 + step - 1) step) as Hd.
  nia.
Qed.

(** The range covers the whole list: past its end every multiple of the
    step is out of the list. *)
Lemma py_range_cover n step k :
  1 ≤ step → (n - 0 + step - 1) `div` step ≤ k → n ≤ k * step.
Proof.
  intros Hs Hk.
  pose proof (Nat.div_mod_eq (n - 0 + step - 1) step) as Hd.
  pose proof (Nat.mod_upper_bound (n - 0 + step - 1) step ltac:(lia)) as Hm.
  nia.
Qed.

Lemma mapM_cons {A B} (f : A → Result B) x l :
  mapM f (x :: l) = f x ≫= λ y, mapM f l ≫= λ k, Ok (y :: k).
Proof. reflexivity. Qed.

Lemma mapM_py_getitem {A} (l : list A) (ixs : list nat) :
  Forall (λ i, i < length l) ixs →
  ∃ ys, mapM (py_getitem l) ixs = Ok ys ∧
        length ys = length ixs ∧
        ∀ k i, ixs !! k = Some i → ys !! k = l !! i.
Proof.
  induction 1 as [|i ixs Hi _ (ys & IH1 & IH2 & IH3)].
  - exists []. by split_and!.
  - destruct (lookup_lt_is_Some_2 l i Hi) as [x Hx].
    exists (x :: ys). rewrite mapM_cons, IH1. unfold py_getitem at 1.
    rewrite Hx, !bind_Ok. split_and!; [done|by rewrite !length_cons, IH2|].
    intros [|k] j; simpl; [by intros [= <-]|apply IH3].
Qed.

Lemma stride_small n : 1 ≤ n → 1 `max` (n `div` (10 `min` n)) = stride n.
Proof.
  intros Hn. unfold stride.
  destruct (Nat.min_spec 10 n) as [[H ->]|[H ->]]; [done|].
  rewrite Nat.div_same by lia.
  destruct (decide (n = 10)) as [->|]; [done|].
  rewrite (Nat.div_small n 10) by lia. done.
Qed.

(** Elements taken at the indices [start, start + step, ...] of a list form
    a subsequence of it. *)
Lemma stride_sublist {A} (l : list A) step r :
  1 ≤ step →
  ∀ start ys,
    length ys = r →
    (∀ k, k < r → is_Some (ys !! k) ∧ ys !! k = l !! (start + k * step)) →
    ys `sublist_of` drop start l.
Proof.
  intros Hs. induction r as [|r IH]; intros start ys Hlen Hys.
  - destruct ys; [apply sublist_nil_l|done].
  - destruct ys as [|y ys]; [done|].
    destruct (Hys 0 ltac:(lia)) as [_ H0]. simpl in H0.
    rewrite Nat.add_0_r in H0. symmetry in H0.
    rewrite (drop_S l y start H0). apply sublist_skip.
    etrans; [apply (IH (start + step) ys)|].
    + simpl in Hlen. lia.
    + intros k Hk. destruct (Hys (S k) ltac:(lia)) as [H1 H2]. simpl in *.
      split; [done|]. rewrite H2. f_equal. lia.
    + replace (start + step) with (S start + (step - 1)) by lia.
      rewrite <- drop_drop. apply sublist_drop.
Qed.

(** The sampler on a non-empty path, index by index. *)
Lemma sample_points_ok path :
  path ≠ [] →
  ∃ sampled, sample_points path = Ok sampled ∧
    ∀ k, sampled !! k =
         (if k <? 10 then path !! (k * stride (length path)) else None).
Proof.
  intros Hne.
  assert (1 ≤ length path) as Hn by (destruct path; [done|simpl; lia]).
  unfold sample_points. remember (length path) as n eqn:En.
  assert (py_floordiv n (10 `min` n) = Ok (n `div` (10 `min` n))) as ->.
  { unfold py_floordiv. destruct (10 `min` n) eqn:E; [lia|done]. }
  rewrite bind_Ok, stride_small by done.
  assert (1 ≤ stride n) as Hs by (unfold stride; lia).
  destruct (mapM_py_getitem path (py_range 0 n (stride n))) as (ys & -> & Hl & Hys).
  { apply Forall_forall. intros i Hi. rewrite <- En.
    by apply (py_range_bound n (stride n)). }
  rewrite bind_Ok. eexists. split; [done|]. intros k.
  assert (ys !! k = path !! (k * stride n)) as Hk.
  { destruct (decide (k < (n - 0 + stride n - 1) `div` stride n)) as [Hlt|Hge].
    - by rewrite (Hys k _ (py_range_lookup 0 n (stride n) k Hlt)).
    - rewrite (lookup_ge_None_2 ys k) by (rewrite Hl, py_range_length; lia).
      symmetry. apply lookup_ge_None_2. rewrite <- En.
      apply py_range_cover; [done|lia]. }
  destruct (Nat.min_spec 10 n) as [[H ->]|[H ->]].
  - destruct (Nat.ltb_spec k 10).
    + by rewrite lookup_take_lt.
    + by rewrite lookup_take_ge.
  - assert (stride n = 1) as Hs1.
    { unfold stride. destruct (decide (n = 10)) as [->|]; [done|].
      rewrite Nat.div_small by lia. done. }
    rewrite Hs1, Nat.mul_1_r in *.
    destruct (decide (k < n)).
    + rewrite lookup_take_lt by done. rewrite Hk.
      destruct (Nat.ltb_spec k 10); [done|lia].
    + rewrite lookup_take_ge by lia.
      destruct (k <? 10); [|done]. symmetry. apply lookup_ge_None_2. lia.
Qed.

(** ** Floats accumulated by the danger loop *)

Lemma danger_qualifies_signed hit :
  danger_qualifies hit = true → signed_as false (hit_score hit).
Proof. apply (flt_threshold_signed 0.60%py). done. Qed.

Lemma fold_fadd_signed (l : list spec_float) acc :
  signed_as false acc → Forall (signed_as false) l →
  signed_as false (fold_left fadd l acc).
Proof.
  intros Hacc Hl. revert acc Hacc.
  induction Hl as [|x l Hx _ IH]; intros acc Hacc; simpl; [done|].
  apply IH. by apply fadd_nonneg.
Qed.

Lemma danger_scores_signed hits :
  Forall (signed_as false) (hit_score <$> List.filter danger_qualifies hits).
Proof.
  apply Forall_fmap, Forall_forall. intros hit Hhit.
  apply list_elem_of_In, filter_In in Hhit as [_ Hq].
  by apply danger_qualifies_signed.
Qed.

Lemma float_sum_signed hits :
  signed_as false (float_sum (hit_score <$> List.filter danger_qualifies hits)).
Proof. apply fold_fadd_signed; [done|apply danger_scores_signed]. Qed.

(** The final score as a function of the accumulated danger. *)
Lemma final_score_clamp t :
  signed_as false t →
  py_max 1.0%py (py_min 10.0%py (10.0 - t * 4.0)%py) =
  clamp (10.0 - 4.0 * t)%py 1.0%py 10.0%py.
Proof.
  intros Ht. rewrite (fmul_comm 4.0%py t).
  apply py_clamp_eq, fsub_ten_not_nan, fmul_four_nonneg, Ht.
Qed.

Section ScoreRoute.
Variable query_points : QueryRequest → Result (list ScoredPoint).
Variable dvec vvec : list spec_float.

(** A result of [score_route] comes from a sampling and a loop that
    returned. *)
Lemma score_route_inv path res :
  score_route query_points dvec vvec path = Ok res →
  ∃ sampled st,
    sample_points path = Ok sampled ∧
    foldM (point_step query_points dvec vvec) initial_state sampled = Ok st ∧
    res = {| score := py_max 1.0%py
                        (py_min 10.0%py (10.0 - total_danger_score st * 4.0)%py);
             tags := take 4 (detected_tags st);
             recommendations := recs st |}.
Proof.
  unfold score_route. intros H.
  destruct (sample_points path) as [sampled|e]; [|done].
  rewrite bind_Ok in H.
  destruct (foldM _ initial_state sampled) as [st|e] eqn:E; [|done].
  rewrite bind_Ok in H. injection H as <-. by exists sampled, st.
Qed.

(** C1. For every path that [score_route] scores, the score is
    [clamp(10.0 - 4.0 * totalDanger, 1.0, 10.0)], where [totalDanger] is the
    sum, in sampling order, of the similarities above 0.60 of the danger
    hits at the sampled points; the score lies in [[1.0, 10.0]], and it is
    exactly 10.0 when no hit is above the threshold. *)
Theorem score_route_score path res :
  score_route query_points dvec vvec path = Ok res →
  ∃ sampled, sample_points path = Ok sampled ∧
    let danger :=
      List.filter danger_qualifies
        (flat_map (danger_hits_at query_points dvec) sampled) in
    let totalDanger := float_sum (hit_score <$> danger) in
    score res = clamp (10.0 - 4.0 * totalDanger)%py 1.0%py 10.0%py ∧
    (1.0 <=? score res)%py = true ∧
    (score res <=? 10.0)%py = true ∧
    (danger = [] → score res = 10.0%py).
Proof.
  intros H. apply score_route_inv in H as (sampled & st & Hs & Hst & ->).
  exists sampled. split; [done|]. cbv zeta. simpl score.
  apply foldM_point_step_danger in Hst as [Ht _]. simpl in Ht.
  fold (float_sum (hit_score <$> List.filter danger_qualifies
          (flat_map (danger_hits_at query_points dvec) sampled))) in Ht.
  rewrite Ht. split_and!.
  - apply final_score_clamp, float_sum_signed.
  - apply py_clamp_range.
  - apply py_clamp_range.
  - by intros ->.
Qed.
End ScoreRoute.

Section ScoreRouteLists.
Variable query_points : QueryRequest → Result (list ScoredPoint).
Variable dvec vvec : list spec_float.

(** C7. The tags returned by [score_route] are the first four distinct
    short tags, in first-seen order, proposed by the danger hits above the
    threshold; so there are at most four, without repetition, and each is
    the text of such a hit up to and excluding its first colon, of length
    below 30. *)
Theorem score_route_tags path res :
  score_route query_points dvec vvec path = Ok res →
  ∃ sampled, sample_points path = Ok sampled ∧
    let danger :=
      List.filter danger_qualifies
        (flat_map (danger_hits_at query_points dvec) sampled) in
    tags res = take 4 (first_seen (List.filter short_tag (tag_text <$> danger))) ∧
    length (tags res) ≤ 4 ∧
    NoDup (tags res) ∧
    tags res `sublist_of` (tag_text <$> danger) ∧
    ∀ t, t ∈ tags res →
      String.length t < 30 ∧
      ∃ hit, hit ∈ danger ∧ is_prefix_before ":" t (hit_text hit).
Proof.
  intros H. apply score_route_inv in H as (sampled & st & Hs & Hst & ->).
  exists sampled. split; [done|]. cbv zeta. simpl tags.
  apply foldM_point_step_danger in Hst as [_ Ht]. simpl in Ht.
  rewrite fold_add_tag_nil in Ht. rewrite Ht.
  set (danger := List.filter danger_qualifies _).
  set (cands := List.filter short_tag (tag_text <$> danger)).
  assert (take 4 (first_seen cands) `sublist_of` cands) as Hsub.
  { etrans; [apply sublist_take|apply first_seen_sublist]. }
  split_and!.
  - done.
  - rewrite length_take. lia.
  - eapply sublist_NoDup; [apply NoDup_first_seen|apply sublist_take].
  - etrans; [exact Hsub|apply sublist_filter_bool].
  - intros t Hin. eapply elem_of_sublist in Hin; [|exact Hsub].
    apply list_elem_of_In, filter_In in Hin as [Hin Hshort].
    apply list_elem_of_In, list_elem_of_fmap in Hin as (hit & -> & Hhit).
    split; [by apply Nat.ltb_lt|].
    exists hit. split; [done|]. apply prefix_before_spec.
Qed.

(** ** Recommendations *)

Lemma rec_step_eq rs hit :
  rec_step rs hit =
  if rec_qualifies hit
     && negb (existsb (λ r, String.eqb (rec_name r) (rec_name (recommendation_of hit))) rs)
  then rs ++ [recommendation_of hit] else rs.
Proof.
  unfold rec_step, rec_qualifies, recommendation_of. simpl.
  by destruct (hit_score hit >? 0.75)%py.
Qed.

Lemma existsb_rec_name name rs :
  existsb (λ r, String.eqb (rec_name r) name) rs = true ↔ name ∈ rec_name <$> rs.
Proof.
  rewrite existsb_exists, list_elem_of_fmap. split.
  - intros (r & Hr%list_elem_of_In & Heq%String.eqb_eq). by exists r.
  - intros (r & -> & Hr%list_elem_of_In). exists r. split; [done|apply String.eqb_refl].
Qed.

Lemma rec_step_ok ps p hit rs :
  p ∈ ps → hit ∈ rec_hits_at query_points vvec p →
  recs_ok query_points vvec ps rs → recs_ok query_points vvec ps (rec_step rs hit) ∧ length (rec_step rs hit) ≤ S (length rs).
Proof.
  intros Hp Hhit [Hnd Hprov]. rewrite rec_step_eq.
  destruct (rec_qualifies hit) eqn:Eq; simpl; [|split; [done|lia]].
  destruct (existsb _ rs) eqn:Ex; simpl; [split; [done|lia]|].
  split; [|rewrite length_app; simpl; lia].
  split.
  - rewrite fmap_app. simpl. apply NoDup_app. split_and!; [done| |apply NoDup_singleton].
    intros name Hin Heq. apply list_elem_of_singleton in Heq as ->.
    apply existsb_rec_name in Hin. congruence.
  - intros r [Hr|Hr]%elem_of_app; [by apply Hprov|].
    apply list_elem_of_singleton in Hr as ->. by exists p, hit.
Qed.

Lemma fold_rec_step_ok ps p hits rs :
  p ∈ ps → (∀ hit, hit ∈ hits → hit ∈ rec_hits_at query_points vvec p) →
  recs_ok query_points vvec ps rs →
  recs_ok query_points vvec ps (fold_left rec_step hits rs) ∧
  length (fold_left rec_step hits rs) ≤ length rs + length hits.
Proof.
  intros Hp. revert rs. induction hits as [|hit hits IH]; intros rs Hh Hok; simpl.
  - split; [done|lia].
  - destruct (rec_step_ok ps p hit rs Hp) as [Hok' Hlen]; [apply Hh; left|done|].
    destruct (IH (rec_step rs hit)) as [Hok'' Hlen'];
      [intros h Hin; apply Hh; by right|done|].
    split; [done|lia].
Qed.

Hypothesis query_limit :
  ∀ req hits, query_points req = Ok hits → length hits ≤ limit req.

Lemma point_step_recs ps p st st' :
  p ∈ ps →
  point_step query_points dvec vvec st p = Ok st' →
  recs_ok query_points vvec ps (recs st) ∧ length (recs st) ≤ 2 →
  recs_ok query_points vvec ps (recs st') ∧ length (recs st') ≤ 2.
Proof.
  intros Hp H [Hok Hlen].
  apply point_step_ok in H as (dhits & _ & _ & _ & [[_ ->]|(Hlt & rhits & Hq & ->)]);
    [done|].
  destruct (fold_rec_step_ok ps p rhits (recs st) Hp) as [Hok' Hlen']; [|done|].
  { intros hit Hin. unfold rec_hits_at. by rewrite Hq. }
  split; [done|]. apply query_limit in Hq. simpl in Hq. lia.
Qed.

Lemma foldM_point_step_recs ps l st st' :
  (∀ p, p ∈ l → p ∈ ps) →
  foldM (point_step query_points dvec vvec) st l = Ok st' →
  recs_ok query_points vvec ps (recs st) ∧ length (recs st) ≤ 2 →
  recs_ok query_points vvec ps (recs st') ∧ length (recs st') ≤ 2.
Proof.
  revert st. induction l as [|p l IH]; intros st Hl H Hinv.
  - by injection H as <-.
  - rewrite foldM_cons in H.
    destruct (point_step query_points dvec vvec st p) as [st1|e] eqn:E; [|done].
    rewrite bind_Ok in H. eapply IH; [|exact H|].
    + intros q Hq. apply Hl. by right.
    + eapply point_step_recs; [|exact E|exact Hinv]. apply Hl. by left.
Qed.

(** C6. Provided the index returns at most [limit] hits per query, the
    recommendations returned by [score_route] are at most two, their names
    are pairwise different strings, and each one was built from a review hit
    of similarity above 0.75 at a sampled point, its name defaulting to
    "Unknown Spot"; a step of the loop appends only such a hit, and only
    when no entry so far carries the same name. *)
Theorem score_route_recommendations path res :
  score_route query_points dvec vvec path = Ok res →
  length (recommendations res) ≤ 2 ∧
  NoDup (rec_name <$> recommendations res) ∧
  (∃ sampled, sample_points path = Ok sampled ∧
     ∀ r, r ∈ recommendations res →
       ∃ p hit, p ∈ sampled ∧ hit ∈ rec_hits_at query_points vvec p ∧
                (hit_score hit >? 0.75)%py = true ∧
                r = {| rec_name := default "Unknown Spot" (p_name (hit_payload hit));
                       rec_description := default "" (p_text (hit_payload hit));
                       rec_type := "place" |}) ∧
  (∀ rs hit,
     rec_step rs hit = rs ∨
     ((hit_score hit >? 0.75)%py = true ∧
      (default "Unknown Spot" (p_name (hit_payload hit)) ∉ rec_name <$> rs) ∧
      rec_step rs hit = rs ++ [recommendation_of hit])).
Proof.
  intros H. apply score_route_inv in H as (sampled & st & Hs & Hst & ->).
  simpl recommendations.
  destruct (foldM_point_step_recs sampled sampled initial_state st) as [[Hnd Hprov] Hlen];
    [done|done| |].
  { split; [|simpl; lia]. split; [constructor|]. intros r Hr. inversion Hr. }
  split_and!; [done|done| |].
  - exists sampled. split; [done|]. exact Hprov.
  - intros rs hit. rewrite rec_step_eq.
    destruct (rec_qualifies hit) eqn:Eq; simpl; [|by left].
    destruct (existsb _ rs) eqn:Ex; simpl; [by left|]. right.
    split_and!; [done| |done].
    intros Hin%existsb_rec_name. simpl in Hin. congruence.
Qed.
End ScoreRouteLists.

(** C4. On a non-empty path the sampler succeeds and selects exactly the
    points of index [0, s, 2s, ...] with [s = max(1, len(path) // 10)], cut
    after ten: at most ten points, in the order of the path, the first one
    being the first point of the path. *)
Theorem sample_points_spec path :
  path ≠ [] →
  ∃ sampled, sample_points path = Ok sampled ∧
    (∀ k, sampled !! k =
          (if k <? 10 then path !! (k * stride (length path)) else None)) ∧
    length sampled ≤ 10 ∧
    sampled `sublist_of` path ∧
    head sampled = head path.
Proof.
  intros Hne. destruct (sample_points_ok path Hne) as (sampled & Hs & Hk).
  exists sampled. split; [done|]. split; [done|].
  assert (length sampled ≤ 10) as Hlen.
  { destruct (decide (length sampled ≤ 10)) as [|Hgt]; [done|].
    destruct (lookup_lt_is_Some_2 sampled 10 ltac:(lia)) as [x Hx].
    rewrite Hk in Hx. done. }
  split_and!; [done| |].
  - rewrite <- (drop_0 path).
    apply (stride_sublist path (stride (length path)) (length sampled));
      [unfold stride; lia|done|].
    intros k Hlt. split; [by apply lookup_lt_is_Some_2|].
    rewrite Hk. destruct (Nat.ltb_spec k 10); [done|lia].
  - rewrite !head_lookup, Hk. done.
Qed.

Section Failures.
Variable query_points : QueryRequest → Result (list ScoredPoint).
Variable dvec vvec : list spec_float.

(** C10. On the empty path the stride computation divides by
    [min(10, 0) = 0] and [score_route] raises [ZeroDivisionError]; on a
    non-empty path the sample count and the stride are at least one and the
    sampling is defined. *)
Theorem score_route_nonempty_precondition :
  10 `min` length (@nil Point) = 0 ∧
  py_floordiv (length (@nil Point)) (10 `min` length (@nil Point))
    = Raise ZeroDivisionError ∧
  score_route query_points dvec vvec [] = Raise ZeroDivisionError ∧
  ∀ path : list Point, path ≠ [] →
    1 ≤ 10 `min` length path ∧
    (∃ q, py_floordiv (length path) (10 `min` length path) = Ok q ∧ 1 ≤ 1 `max` q) ∧
    ∃ sampled, sample_points path = Ok sampled.
Proof.
  split_and!; [done..|]. intros path Hne.
  assert (1 ≤ length path) as Hn by (destruct path; [done|simpl; lia]).
  split_and!.
  - lia.
  - exists (length path `div` (10 `min` length path)). split; [|lia].
    unfold py_floordiv. destruct (10 `min` length path) eqn:E; [lia|done].
  - destruct (sample_points_ok path Hne) as (sampled & Hs & _). by exists sampled.
Qed.

Lemma foldM_raise {A S} (f : S → A → Result S) l x :
  x ∈ l → (∀ s, ∃ e, f s x = Raise e) → ∀ s, ∃ e, foldM f s l = Raise e.
Proof.
  intros Hx Hf. induction l as [|y l IH]; intros s; [by inversion Hx|].
  rewrite foldM_cons. apply elem_of_cons in Hx as [<-|Hx].
  - destruct (Hf s) as [e ->]. by exists e.
  - destruct (f s y) as [s'|e]; [apply (IH Hx)|by exists e].
Qed.

(** C2 (the code departs from the claim). A danger query that fails at a
    sampled point is not treated as a query without hits: the exception
    leaves [score_route], which returns no result. *)
Theorem score_route_query_failure path sampled p e :
  sample_points path = Ok sampled → p ∈ sampled →
  query_points (danger_request dvec p) = Raise e →
  ∃ e', score_route query_points dvec vvec path = Raise e'.
Proof.
  intros Hs Hp Hq. unfold score_route. rewrite Hs, bind_Ok.
  destruct (foldM_raise (point_step query_points dvec vvec) sampled p Hp) with
    (s := initial_state) as [e' ->].
  - intros s. exists e. unfold point_step. by rewrite Hq.
  - by exists e'.
Qed.

(** The same holds for the review query: at the first sampled point no
    recommendation is collected yet, the query is made, and its failure
    leaves [score_route]. *)
Lemma score_route_review_query_failure path p rest hits e :
  sample_points path = Ok (p :: rest) →
  query_points (danger_request dvec p) = Ok hits →
  query_points (rec_request vvec p) = Raise e →
  score_route query_points dvec vvec path = Raise e.
Proof.
  intros Hs Hd Hr. unfold score_route. rewrite Hs, bind_Ok, foldM_cons.
  unfold point_step. rewrite Hd, bind_Ok.
  destruct (foldM_danger_step hits initial_state) as (st1 & -> & _ & _ & Hrecs).
  rewrite bind_Ok, Hrecs. simpl. by rewrite Hr.
Qed.
End Failures.

(** A one-point path against an index whose queries time out: the
    exception of the first query is what [score_route] raises. *)
Example score_route_timeout :
  score_route failing_index [] [] [times_square] =
  Raise (ExternalError "query timed out").
Proof. vm_compute. reflexivity. Qed.

(** ** The two-reports scenario *)

Section Scenario.
Variable query_points : QueryRequest → Result (list ScoredPoint).
Variable dvec vvec : list spec_float.

(** C9 (as the code computes it). With one sampled point, two danger hits of
    similarity 0.8 and 0.65 and a review query that answers, the accumulated
    danger is the binary64 sum [0.8 + 0.65 = 1.4500000000000002], the
    penalty is [5.800000000000001] and the score is [4.199999999999999]:
    each is the float next to 1.45, 5.8 and 4.2. *)
Theorem score_route_two_reports path p h1 h2 rec_hits :
  sample_points path = Ok [p] →
  query_points (danger_request dvec p) = Ok [h1; h2] →
  hit_score h1 = 0.8%py → hit_score h2 = 0.65%py →
  query_points (rec_request vvec p) = Ok rec_hits →
  ∃ st res,
    foldM (point_step query_points dvec vvec) initial_state [p] = Ok st ∧
    score_route query_points dvec vvec path = Ok res ∧
    total_danger_score st = S754_finite false 6530219459687220 (-52) ∧
    SFpred prec emax (total_danger_score st) = 1.45%py ∧
    (total_danger_score st * 4.0)%py = S754_finite false 6530219459687220 (-50) ∧
    SFpred prec emax (total_danger_score st * 4.0)%py = 5.8%py ∧
    score res = S754_finite false 4728779608739020 (-50) ∧
    SFsucc prec emax (score res) = 4.2%py.
Proof.
  intros Hs Hd H1 H2 Hr.
  destruct (foldM_danger_step [h1; h2] initial_state) as (st1 & Hf & Ht & Htags & Hrecs).
  assert (total_danger_score st1 = S754_finite false 6530219459687220 (-52)) as Htot.
  { rewrite Ht. cbn [List.filter]. unfold danger_qualifies. rewrite H1, H2.
    change (0.8 >? 0.60)%py with true. change (0.65 >? 0.60)%py with true.
    cbn [fmap list_fmap fold_left]. rewrite H1, H2. reflexivity. }
  eexists _, _. split_and!.
  - rewrite foldM_cons. unfold point_step. rewrite Hd, bind_Ok, Hf, bind_Ok.
    rewrite Hrecs. simpl. rewrite Hr, bind_Ok. reflexivity.
  - unfold score_route. rewrite Hs, bind_Ok, foldM_cons. unfold point_step.
    rewrite Hd, bind_Ok, Hf, bind_Ok, Hrecs. simpl. rewrite Hr, bind_Ok.
    reflexivity.
  - exact Htot.
  - simpl. rewrite Htot. reflexivity.
  - simpl. rewrite Htot. reflexivity.
  - simpl. rewrite Htot. reflexivity.
  - simpl. rewrite Htot. reflexivity.
  - simpl. rewrite Htot. reflexivity.
Qed.
End Scenario.

(** ** Routing *)

Section RoutingProofs.
Variable osrm_get : string → Point → Point → Result OsrmData.

Lemma generate_real_paths_length start end_ :
  1 ≤ length (generate_real_paths osrm_get start end_) ≤ 3.
Proof.
  unfold generate_real_paths.
  destruct (py_truthy (fetch_osrm_route osrm_get start end_ "foot"));
    destruct (py_truthy (fetch_osrm_route osrm_get start (waypoint_north start end_) "foot")
              && py_truthy (fetch_osrm_route osrm_get (waypoint_north start end_) end_ "foot"));
    destruct (py_truthy (fetch_osrm_route osrm_get start (waypoint_south start end_) "foot")
              && py_truthy (fetch_osrm_route osrm_get (waypoint_south start end_) end_ "foot"));
    simpl; lia.
Qed.

(** C5. [generate_real_paths] returns between one and three paths; when
    the routing service gives no geometry for the direct route and for both
    legs of each alternate, it returns the straight line [[start, end]]
    alone. *)
Theorem generate_real_paths_count start end_ :
  1 ≤ length (generate_real_paths osrm_get start end_) ≤ 3 ∧
  (fetch_osrm_route osrm_get start end_ "foot" = [] →
   fetch_osrm_route osrm_get start (waypoint_north start end_) "foot" = [] →
   fetch_osrm_route osrm_get (waypoint_north start end_) end_ "foot" = [] →
   fetch_osrm_route osrm_get start (waypoint_south start end_) "foot" = [] →
   fetch_osrm_route osrm_get (waypoint_south start end_) end_ "foot" = [] →
   generate_real_paths osrm_get start end_ = [[start; end_]]).
Proof.
  split; [apply generate_real_paths_length|].
  intros Hd Ha1 Hb1 Ha2 Hb2. unfold generate_real_paths.
  rewrite Hd, Ha1, Hb1, Ha2, Hb2. reflexivity.
Qed.

(** Every generated path has a point, so [score_route] is defined on it. *)
Lemma generate_real_paths_nonempty start end_ :
  Forall (λ path, path ≠ []) (generate_real_paths osrm_get start end_).
Proof.
  unfold generate_real_paths.
  destruct (fetch_osrm_route osrm_get start end_ "foot") as [|d0 d];
    destruct (fetch_osrm_route osrm_get start (waypoint_north start end_) "foot") as [|a0 a];
    destruct (fetch_osrm_route osrm_get (waypoint_north start end_) end_ "foot") as [|b0 b];
    destruct (fetch_osrm_route osrm_get start (waypoint_south start end_) "foot") as [|c0 c];
    destruct (fetch_osrm_route osrm_get (waypoint_south start end_) end_ "foot") as [|e0 e];
    simpl; repeat constructor; done.
Qed.
End RoutingProofs.

(** ** [get_routes] is defined whenever the index answers *)

Section RoutesProofs.
Variable osrm_get : string → Point → Point → Result OsrmData.
Variable query_points : QueryRequest → Result (list ScoredPoint).
Variable dvec vvec : list spec_float.
Hypothesis query_answers : ∀ req, ∃ hits, query_points req = Ok hits.

Lemma point_step_defined st p :
  ∃ st', point_step query_points dvec vvec st p = Ok st'.
Proof.
  unfold point_step.
  destruct (query_answers (danger_request dvec p)) as [dhits ->].
  rewrite bind_Ok.
  destruct (foldM_danger_step dhits st) as (st1 & -> & _). rewrite bind_Ok.
  destruct (length (recs st1) <? 2); [|by eexists].
  destruct (query_answers (rec_request vvec p)) as [rhits ->].
  rewrite bind_Ok. by eexists.
Qed.

Lemma foldM_point_step_defined l st :
  ∃ st', foldM (point_step query_points dvec vvec) st l = Ok st'.
Proof.
  revert st. induction l as [|p l IH]; intros st; [by exists st|].
  rewrite foldM_cons. destruct (point_step_defined st p) as [st1 ->].
  rewrite bind_Ok. apply IH.
Qed.

Lemma score_route_defined path :
  path ≠ [] → ∃ res, score_route query_points dvec vvec path = Ok res.
Proof.
  intros Hne. unfold score_route.
  destruct (sample_points_ok path Hne) as (sampled & -> & _). rewrite bind_Ok.
  destruct (foldM_point_step_defined sampled initial_state) as [st ->].
  rewrite bind_Ok. by eexists.
Qed.

Lemma mapM_defined {A B} (f : A → Result B) l :
  Forall (λ x, ∃ y, f x = Ok y) l →
  ∃ ys, mapM f l = Ok ys ∧ length ys = length l.
Proof.
  induction 1 as [|x l [y Hy] _ (ys & IH & Hlen)]; [by exists []|].
  exists (y :: ys). rewrite mapM_cons, Hy, IH, !bind_Ok. simpl. by rewrite Hlen.
Qed.

(** No route request fails on the path geometry: the paths are one to
    three, none is empty, and each has its description. *)
Lemma get_routes_defined start_lat start_lng end_lat end_lng :
  ∃ response,
    get_routes osrm_get query_points dvec vvec start_lat start_lng end_lat end_lng
      = Ok response ∧
    1 ≤ length response ≤ 3.
Proof.
  unfold get_routes.
  set (start := {| lat := start_lat; lng := start_lng |}).
  set (end_ := {| lat := end_lat; lng := end_lng |}).
  pose proof (generate_real_paths_length osrm_get start end_) as Hlen.
  pose proof (generate_real_paths_nonempty osrm_get start end_) as Hne.
  destruct (mapM_defined (route_option query_points dvec vvec)
              (py_enumerate (generate_real_paths osrm_get start end_)))
    as (response & Hr & Hl).
  - apply Forall_forall. intros [i path] Hin. unfold py_enumerate in Hin.
    pose proof (elem_of_zip_l _ _ _ _ Hin) as Hi.
    pose proof (elem_of_zip_r _ _ _ _ Hin) as Hp.
    apply elem_of_seq in Hi. rewrite Forall_forall in Hne.
    destruct (score_route_defined path (Hne path Hp)) as [res Hres].
    destruct (lookup_lt_is_Some_2 descriptions i) as [d Hd]; [simpl; lia|].
    unfold route_option. simpl. rewrite Hres, bind_Ok.
    unfold py_getitem. rewrite Hd, bind_Ok. by eexists.
  - exists response. split; [done|].
    rewrite Hl. unfold py_enumerate. rewrite length_zip, length_seq. lia.
Qed.
End RoutesProofs.

(** ** The store: startup, seeding and reports *)

Lemma exists_collection_name (m : gmap string Collection) :
  is_Some (m !! COLLECTION_NAME) →
  existsb (λ c, String.eqb c COLLECTION_NAME) (map_to_list m).*1 = true.
Proof.
  intros [c Hc]. apply existsb_exists. exists COLLECTION_NAME.
  split; [|apply String.eqb_refl].
  apply list_elem_of_In, list_elem_of_fmap. exists (COLLECTION_NAME, c).
  split; [done|]. by apply elem_of_map_to_list.
Qed.

Lemma store_bind_inv {A B} (I : Qdrant → Prop) (m : Store A) (f : A → Store B) q :
  (∀ q, I q → I (m q).2) → (∀ a q, I q → I (f a q).2) →
  I q → I ((m ≫= f) q).2.
Proof.
  intros Hm Hf Hq. unfold mbind, Store_bind.
  specialize (Hm q Hq). destruct (m q) as [[a|e] q']; simpl in *; [by apply Hf|done].
Qed.

Lemma upsert_inv b name pts q : store_inv b q → store_inv b (upsert name pts q).2.
Proof.
  intros Hq. unfold upsert.
  destruct (reachable q) eqn:E; [|exact Hq].
  destruct (collections q !! name) as [c|] eqn:Ec; [|exact Hq].
  destruct Hq as [Hr Hc].
  split; [simpl; congruence|]. unfold has_collection. simpl.
  destruct (decide (name = COLLECTION_NAME)) as [->|Hne].
  - by rewrite lookup_insert_eq.
  - by rewrite lookup_insert_ne.
Qed.

Section StoreProofs.
Variable get_vector : string → list spec_float.
Variable py_float : string → Result spec_float.

Lemma batch_step_inv b acc ip q :
  store_inv b q → store_inv b (batch_step get_vector acc ip q).2.
Proof.
  intros Hq. unfold batch_step.
  destruct (100 <=? _); [|done].
  apply store_bind_inv; [intros; by apply upsert_inv|done|done].
Qed.

Lemma foldM_batch_step_inv b l acc q :
  store_inv b q → store_inv b (foldM (batch_step get_vector) acc l q).2.
Proof.
  revert acc q. induction l as [|ip l IH]; intros acc q Hq; [done|].
  rewrite foldM_cons. apply store_bind_inv; [|intros; by apply IH|done].
  intros. by apply batch_step_inv.
Qed.

Lemma seed_nyc_data_inv b crime_response q :
  store_inv b q →
  store_inv b (seed_nyc_data get_vector py_float crime_response q).2.
Proof.
  intros Hq. unfold seed_nyc_data.
  apply store_bind_inv; [intros; by apply foldM_batch_step_inv| |done].
  intros acc q' Hq'. destruct (py_truthy acc); [by apply upsert_inv|done].
Qed.

(** A start against a store that holds the collection changes nothing. *)
Lemma startup_event_skip crime_response q :
  has_collection q →
  (startup_event get_vector py_float crime_response q).2 = q ∧
  (reachable q = true →
   startup_event get_vector py_float crime_response q = (Ok (), q)).
Proof.
  intros Hc. unfold startup_event, mbind, Store_bind, store_try, get_collections.
  destruct (reachable q) eqn:Er.
  - unfold mret, Store_ret. rewrite (exists_collection_name _ Hc). done.
  - unfold mret, Store_ret, create_collection. simpl. rewrite Er. done.
Qed.

(** A start that succeeds leaves a reachable store holding the collection. *)
Lemma startup_event_establishes crime_response q q' :
  startup_event get_vector py_float crime_response q = (Ok (), q') →
  store_inv true q'.
Proof.
  unfold startup_event, mbind at 1, Store_bind at 1, store_try.
  unfold mbind at 1, Store_bind at 1, get_collections.
  destruct (reachable q) eqn:Er.
  - unfold mret at 1, Store_ret at 1.
    destruct (existsb _ _) eqn:Ex; simpl.
    + intros [= <-]. split; [done|].
      apply existsb_exists in Ex as (name & Hin & Heq).
      apply String.eqb_eq in Heq.
      apply list_elem_of_In, list_elem_of_fmap in Hin as ([n c] & Hn & Hin).
      apply elem_of_map_to_list in Hin. simpl in Hn. exists c. congruence.
    + unfold mbind, Store_bind, create_collection at 1. rewrite Er.
      destruct (collections q !! COLLECTION_NAME) eqn:Ec; [done|].
      intros H.
      match type of H with seed_nyc_data _ _ _ ?q1 = _ =>
        pose proof (seed_nyc_data_inv true crime_response q1) as Hinv end.
      rewrite H in Hinv. apply Hinv. split; [done|].
      unfold has_collection. simpl. by rewrite lookup_insert_eq.
  - unfold mret, Store_ret, mbind, Store_bind, create_collection. simpl.
    rewrite Er. done.
Qed.

(** C8. A start against a store in which the collection exists performs no
    seed load: the store, and so its records, are the same afterwards. *)
Theorem startup_event_idempotent crime_response q :
  is_Some (collections q !! COLLECTION_NAME) →
  (startup_event get_vector py_float crime_response q).2 = q ∧
  (reachable q = true →
   startup_event get_vector py_float crime_response q = (Ok (), q)).
Proof. intros Hc. by apply startup_event_skip. Qed.

(** Two starts in a row: the second one leaves the store of the first. *)
Lemma startup_event_twice crime_response crime_response' q q' :
  startup_event get_vector py_float crime_response q = (Ok (), q') →
  startup_event get_vector py_float crime_response' q' = (Ok (), q').
Proof.
  intros [Hr Hc]%startup_event_establishes.
  by apply startup_event_skip.
Qed.

(** C3 (as the code behaves). Every submission, whatever its coordinate
    and its text, is stored: on a reachable store holding the collection,
    [report_vibe] answers "success" and the collection maps the fresh
    identifier to the submitted record, all other points being unchanged. *)
Theorem report_vibe_stores report uuid4 timestamp q c :
  reachable q = true →
  collections q !! COLLECTION_NAME = Some c →
  ∃ q' c',
    report_vibe get_vector report uuid4 timestamp q =
      (Ok {| status := "success";
             message := "Vibe memory updated. Search again to see impact.";
             location := (report_lat report, report_lng report) |}, q') ∧
    collections q' !! COLLECTION_NAME = Some c' ∧
    points c' !! StrId uuid4 =
      Some (get_vector (report_description report), report_payload report timestamp) ∧
    (∀ i, i ≠ StrId uuid4 → points c' !! i = points c !! i) ∧
    (∀ name, name ≠ COLLECTION_NAME → collections q' !! name = collections q !! name).
Proof.
  intros Hr Hc. unfold report_vibe, mbind, Store_bind, upsert.
  rewrite Hr, Hc. eexists _, _. split; [reflexivity|]. simpl. split_and!.
  - by rewrite lookup_insert_eq.
  - unfold upsert_point. simpl. by rewrite lookup_insert_eq.
  - intros i Hi. unfold upsert_point. simpl. by rewrite lookup_insert_ne.
  - intros name Hn. by rewrite lookup_insert_ne.
Qed.
End StoreProofs.

(** ** The model at concrete inputs *)

(** The score theorem on the two-reports index. *)
Lemma score_route_score_witness :
  score_route two_reports_index [] [] [times_square] = Ok two_reports_result ∧
  ∃ sampled, sample_points [times_square] = Ok sampled ∧
    let danger :=
      List.filter danger_qualifies
        (flat_map (danger_hits_at two_reports_index []) sampled) in
    let totalDanger := float_sum (hit_score <$> danger) in
    score two_reports_result = clamp (10.0 - 4.0 * totalDanger)%py 1.0%py 10.0%py ∧
    (1.0 <=? score two_reports_result)%py = true ∧
    (score two_reports_result <=? 10.0)%py = true ∧
    (danger = [] → score two_reports_result = 10.0%py).
Proof.
  split; [vm_compute; reflexivity|].
  apply (score_route_score two_reports_index [] [] [times_square] two_reports_result).
  vm_compute; reflexivity.
Defined.

(** The tags theorem on the two-reports index: "Crime Report" and "Robbery". *)
Lemma score_route_tags_witness :
  score_route two_reports_index [] [] [times_square] = Ok two_reports_result ∧
  ∃ sampled, sample_points [times_square] = Ok sampled ∧
    let danger :=
      List.filter danger_qualifies
        (flat_map (danger_hits_at two_reports_index []) sampled) in
    tags two_reports_result
      = take 4 (first_seen (List.filter short_tag (tag_text <$> danger))) ∧
    length (tags two_reports_result) ≤ 4 ∧
    NoDup (tags two_reports_result) ∧
    tags two_reports_result `sublist_of` (tag_text <$> danger) ∧
    ∀ t, t ∈ tags two_reports_result →
      String.length t < 30 ∧
      ∃ hit, hit ∈ danger ∧ is_prefix_before ":" t (hit_text hit).
Proof.
  split; [vm_compute; reflexivity|].
  apply (score_route_tags two_reports_index [] [] [times_square] two_reports_result).
  vm_compute; reflexivity.
Defined.

(** The review index keeps to the limit of a request. *)
Lemma review_index_limit req hits :
  review_index req = Ok hits → length hits ≤ limit req.
Proof.
  unfold review_index. destruct (limit req =? 1) eqn:E; intros [= <-]; simpl; [|lia].
  apply Nat.eqb_eq in E. lia.
Qed.

(** Two sampled points near the same review: one recommendation. *)
Lemma score_route_recommendations_witness :
  score_route review_index [] [] [times_square; penn_station] = Ok review_result ∧
  length (recommendations review_result) ≤ 2 ∧
  NoDup (rec_name <$> recommendations review_result).
Proof.
  split; [vm_compute; reflexivity|].
  destruct (score_route_recommendations review_index [] [] review_index_limit
              [times_square; penn_station] review_result) as (Hlen & Hnd & _).
  - vm_compute; reflexivity.
  - split; assumption.
Defined.

(** Name comparison is exact: "moma" does not stand for "MOMA". *)
Example rec_step_case_sensitive :
  rec_step [recommendation_of moma_lowercase_review] moma_review =
  [recommendation_of moma_lowercase_review; recommendation_of moma_review] ∧
  rec_step [recommendation_of moma_review] moma_review =
  [recommendation_of moma_review].
Proof. split; vm_compute; reflexivity. Qed.

(** The bound of two rests on the index keeping to [limit=1]: an index
    that answers one review query with three reviews yields three
    recommendations. *)
Example recommendations_rely_on_limit :
  recommendations <$> score_route unbounded_index [] [] [times_square] =
  Ok [recommendation_of moma_review; recommendation_of moma_lowercase_review;
      recommendation_of bryant_park_review].
Proof. vm_compute. reflexivity. Qed.

(** The sampler theorem on a path of 25 points. *)
Lemma sample_points_spec_witness :
  replicate 25 times_square ≠ [] ∧
  ∃ sampled, sample_points (replicate 25 times_square) = Ok sampled ∧
    (∀ k, sampled !! k =
          (if k <? 10
           then replicate 25 times_square !! (k * stride (length (replicate 25 times_square)))
           else None)) ∧
    length sampled ≤ 10 ∧
    sampled `sublist_of` replicate 25 times_square ∧
    head sampled = head (replicate 25 times_square).
Proof.
  split; [discriminate|].
  apply (sample_points_spec (replicate 25 times_square)). discriminate.
Defined.

(** A path of 25 points is sampled at the indices 0, 2, ..., 18. *)
Example sample_points_25 (pts : list Point) :
  length pts = 25 →
  sample_points pts = Ok ((λ k, default times_square (pts !! k)) <$> [0; 2; 4; 6; 8; 10; 12; 14; 16; 18]).
Proof.
  intros Hlen. do 26 (destruct pts as [|? pts]; try discriminate).
  reflexivity.
Qed.

(** The failure theorem on an index whose queries time out. *)
Lemma score_route_query_failure_witness :
  sample_points [times_square] = Ok [times_square] ∧
  times_square ∈ [times_square] ∧
  failing_index (danger_request [] times_square)
    = Raise (ExternalError "query timed out") ∧
  ∃ e', score_route failing_index [] [] [times_square] = Raise e'.
Proof.
  split; [vm_compute; reflexivity|]. split; [by left|]. split; [reflexivity|].
  apply (score_route_query_failure failing_index [] [] [times_square]
           [times_square] times_square (ExternalError "query timed out")).
  - vm_compute; reflexivity.
  - by left.
  - reflexivity.
Defined.

(** The sibling [get_nearby_vibes] does turn a failed query into an empty
    answer. *)
Example get_nearby_vibes_failure (lat_ lng_ radius_ : spec_float) :
  get_nearby_vibes (λ _ _, Raise (ExternalError "query timed out")) lat_ lng_ radius_ =
  {| vibes := []; count := 0; error := Some "query timed out" |}.
Proof. reflexivity. Qed.

(** The scenario theorem on the two-reports index. *)
Lemma score_route_two_reports_witness :
  sample_points [times_square] = Ok [times_square] ∧
  two_reports_index (danger_request [] times_square) = Ok [assault_report; robbery_report] ∧
  hit_score assault_report = 0.8%py ∧ hit_score robbery_report = 0.65%py ∧
  two_reports_index (rec_request [] times_square) = Ok [] ∧
  ∃ st res,
    foldM (point_step two_reports_index [] []) initial_state [times_square] = Ok st ∧
    score_route two_reports_index [] [] [times_square] = Ok res ∧
    total_danger_score st = S754_finite false 6530219459687220 (-52) ∧
    SFpred prec emax (total_danger_score st) = 1.45%py ∧
    (total_danger_score st * 4.0)%py = S754_finite false 6530219459687220 (-50) ∧
    SFpred prec emax (total_danger_score st * 4.0)%py = 5.8%py ∧
    score res = S754_finite false 4728779608739020 (-50) ∧
    SFsucc prec emax (score res) = 4.2%py.
Proof.
  split; [vm_compute; reflexivity|]. do 4 (split; [reflexivity|]).
  apply (score_route_two_reports two_reports_index [] [] [times_square] times_square
           assault_report robbery_report []); reflexivity.
Defined.

(** C9, as stated, fails on the code: in the scenario of the claim the
    three values differ from the floats 1.45, 5.8 and 4.2. *)
Lemma two_reports_not_exact :
  sample_points [times_square] = Ok [times_square] ∧
  two_reports_index (danger_request [] times_square) = Ok [assault_report; robbery_report] ∧
  hit_score assault_report = 0.8%py ∧ hit_score robbery_report = 0.65%py ∧
  two_reports_index (rec_request [] times_square) = Ok [] ∧
  (0 + 0.8 + 0.65)%py ≠ 1.45%py ∧
  ((0 + 0.8 + 0.65) * 4.0)%py ≠ 5.8%py ∧
  score <$> score_route two_reports_index [] [] [times_square]
    = Ok (S754_finite false 4728779608739020 (-50)) ∧
  S754_finite false 4728779608739020 (-50) ≠ 4.2%py.
Proof.
  split_and!; try (vm_compute; reflexivity); vm_compute; discriminate.
Qed.

(** The score that [get_routes] reports in the scenario of the two reports
    is the score of [score_route] rounded to one decimal: 4.2. *)
Example get_routes_two_reports :
  fmap (M := list) safety_score
    <$> get_routes one_point_route two_reports_index [] []
          40.7580%py (-73.9855)%py 40.7505%py (-73.9934)%py
  = Ok [4.2%py; 4.2%py; 4.2%py] ∧
  py_round (score two_reports_result) 1 = 4.2%py.
Proof. split; vm_compute; reflexivity. Qed.

(** Without any geometry the only path is the straight line. *)
Lemma generate_real_paths_fallback_witness :
  generate_real_paths no_route times_square penn_station
  = [[times_square; penn_station]].
Proof.
  apply (proj2 (generate_real_paths_count no_route times_square penn_station));
    reflexivity.
Defined.

(** A second start on the seeded store. *)
Lemma startup_event_idempotent_witness :
  is_Some (collections seeded_store !! COLLECTION_NAME) ∧
  (startup_event no_embedding no_float (Raise unreachable) seeded_store).2 = seeded_store ∧
  (reachable seeded_store = true →
   startup_event no_embedding no_float (Raise unreachable) seeded_store
   = (Ok (), seeded_store)).
Proof.
  assert (is_Some (collections seeded_store !! COLLECTION_NAME)) as H.
  { exists seeded_collection. vm_compute. reflexivity. }
  split; [exact H|].
  apply (startup_event_idempotent no_embedding no_float (Raise unreachable)
           seeded_store H).
Defined.

(** The first start seeds the six reviews; the second one adds nothing. *)
Example startup_event_seeds_once :
  size (points seeded_collection) = 6 ∧
  (startup_event no_embedding no_float (Raise unreachable) seeded_store).2 = seeded_store.
Proof. split; vm_compute; reflexivity. Qed.

(** The report theorem on the seeded store and a malformed submission. *)
Lemma report_vibe_stores_witness :
  reachable seeded_store = true ∧
  collections seeded_store !! COLLECTION_NAME = Some seeded_collection ∧
  ∃ q' c',
    report_vibe no_embedding malformed_report "0b5c" "2026-01-01T00:00:00" seeded_store =
      (Ok {| status := "success";
             message := "Vibe memory updated. Search again to see impact.";
             location := (report_lat malformed_report, report_lng malformed_report) |}, q') ∧
    collections q' !! COLLECTION_NAME = Some c' ∧
    points c' !! StrId "0b5c" =
      Some (no_embedding (report_description malformed_report),
            report_payload malformed_report "2026-01-01T00:00:00") ∧
    (∀ i, i ≠ StrId "0b5c" → points c' !! i = points seeded_collection !! i) ∧
    (∀ name, name ≠ COLLECTION_NAME →
       collections q' !! name = collections seeded_store !! name).
Proof.
  split; [reflexivity|]. split; [vm_compute; reflexivity|].
  apply (report_vibe_stores no_embedding malformed_report "0b5c"
           "2026-01-01T00:00:00" seeded_store seeded_collection).
  - reflexivity.
  - vm_compute; reflexivity.
Defined.

(** C3, as stated, fails on the code: a submission at latitude 91,
    longitude 200 and with an empty text is answered with "success" and is
    stored. *)
Lemma report_vibe_accepts_malformed :
  valid_submission malformed_report = false ∧
  (report_vibe no_embedding malformed_report "0b5c" "2026-01-01T00:00:00" seeded_store).1
  = Ok {| status := "success";
          message := "Vibe memory updated. Search again to see impact.";
          location := (91.0%py, 200.0%py) |} ∧
  points seeded_collection !! StrId "0b5c" = None ∧
  (collections
     (report_vibe no_embedding malformed_report "0b5c" "2026-01-01T00:00:00" seeded_store).2
     !! COLLECTION_NAME) ≫= (λ c, points c !! StrId "0b5c")
  = Some ([], report_payload malformed_report "2026-01-01T00:00:00").
Proof. split_and!; vm_compute; reflexivity. Qed.
